(** * File upload functions: storage routing, SharePoint source, batch handlers

    A shallow embedding of the JavaScript sources

      - [src/functions/fileUpload/index.js]      (module [FileUpload])
      - [src/functions/sharePointUpload/index.js] (module [SharePointUpload])
      - the older single-file variants of the same handlers
        (modules [Part000] and [Part001], their HTTP functions in
        [Part000Http] and [Part001Http])
      - [scripts/config.js] and [setup.js]        (module [Script])

    Every call that leaves the process (file system, blob SDK, Graph client,
    uuid generator, console) is answered by a [Platform] and recorded in a
    history of events, so that "which calls were made" and "what was
    returned or thrown" are both observable. *)

From Stdlib Require Import String Ascii List Bool Arith Lia.
Import ListNotations.
Open Scope string_scope.

(** ** JavaScript values used by the handlers *)

(** [error.message] is all the handlers ever read from a caught error. *)
Definition JsError := string.

(** A property holding a string, or [undefined] ([None]). *)
Definition JsString := option string.

(** JavaScript truthiness of such a property: [undefined] and the empty string are falsy. *)
Definition truthy (v : JsString) : bool :=
  match v with
  | Some s => negb (String.eqb s EmptyString)
  | None => false
  end.

(** [v || d] on strings. *)
Definition js_or (v : JsString) (d : string) : string :=
  match v with
  | Some s => if String.eqb s EmptyString then d else s
  | None => d
  end.

(** File content as it reaches the storage code: a Buffer, a string, or a
    missing value ([file.buffer] of a part without data). *)
Inductive Content :=
| CUndefined
| CBuffer (bytes : list Byte.byte)
| CString (s : string).

(** [process.env], restricted to the variables the handlers read. *)
Record ProcessEnv := {
  AzureStorageConnectionString : JsString;
  LocalUploadPath : JsString;
  SHAREPOINT_CLIENT_ID : JsString;
  SHAREPOINT_CLIENT_SECRET : JsString;
  SHAREPOINT_TENANT_ID : JsString
}.

(** ** Calls to the outside and their history *)

Inductive LogLevel := LogInfo | LogWarn | LogError.

Inductive Call :=
| fs_mkdir (path : string)
| fs_writeFile (path : string) (data : Content)
| BlobServiceClient_fromConnectionString (connectionString : JsString)
| containerClient_createIfNotExists (container : string)
| blockBlobClient_upload (container blobName : string) (data : Content) (len : nat)
| uuidv4 (value : string)
| graph_api_get (apiPath : string)
| new_ClientSecretCredential (tenant client secret : JsString)
| console (level : LogLevel) (text : string) (err : option JsError).

Inductive Reply :=
| Done
| Failed (e : JsError).

Record Event := { call : Call; reply : Reply }.

(** Newest event first. *)
Definition History := list Event.

(** The calls that go to the remote blob store. *)
Definition is_blob_call (c : Call) : bool :=
  match c with
  | BlobServiceClient_fromConnectionString _
  | containerClient_createIfNotExists _
  | blockBlobClient_upload _ _ _ _ => true
  | _ => false
  end.

(** The call that goes to the Graph API (token acquisition included). *)
Definition is_fetch_call (c : Call) : bool :=
  match c with
  | graph_api_get _ => true
  | _ => false
  end.

(** Storage calls: the blob store and the local disk write. *)
Definition is_storage_call (c : Call) : bool :=
  match c with
  | fs_writeFile _ _ => true
  | _ => is_blob_call c
  end.

Definition is_remote_call (c : Call) : bool :=
  is_blob_call c || is_fetch_call c.

(** The outside world. Each answer may depend on everything that happened
    before; [None] means the call completed, [Some e] that it threw or
    rejected with [e]. The pure helpers of [path] and the blob client's
    [url] getter are functions of their arguments. *)
Record Platform := {
  mkdir_reply : History -> string -> option JsError;
  writeFile_reply : History -> string -> Content -> option JsError;
  fromConnectionString_reply : History -> JsString -> option JsError;
  createIfNotExists_reply : History -> string -> option JsError;
  upload_reply : History -> string -> string -> Content -> nat -> option JsError;
  uuidv4_reply : History -> string;
  graph_get_reply : History -> string -> JsError + Content;
  credential_reply : History -> JsString -> JsString -> JsString -> option JsError;
  blob_url : JsString -> string -> string -> string;
  path_join : list string -> string;
  dirname : string
}.

(** ** Asynchronous computations: history passing with exceptions *)

Inductive Outcome (A : Type) :=
| Returned (a : A)
| Thrown (e : JsError).
Arguments Returned {A} a.
Arguments Thrown {A} e.

Definition Async (A : Type) := History -> Outcome A * History.

Definition ret {A} (a : A) : Async A := fun h => (Returned a, h).

Definition throw {A} (e : JsError) : Async A := fun h => (Thrown e, h).

Definition bind {A B} (m : Async A) (k : A -> Async B) : Async B :=
  fun h =>
    match m h with
    | (Returned a, h1) => k a h1
    | (Thrown e, h1) => (Thrown e, h1)
    end.

(** [try { m } catch (error) { handler error }]: the events of [m] up to the
    throw stay in the history. *)
Definition try_catch {A} (m : Async A) (handler : JsError -> Async A) : Async A :=
  fun h =>
    match m h with
    | (Returned a, h1) => (Returned a, h1)
    | (Thrown e, h1) => handler e h1
    end.

Declare Scope async_scope.
Delimit Scope async_scope with async.
Notation "x <- m ;; k" := (bind m (fun x => k))
  (at level 61, m at next level, right associativity) : async_scope.
Notation "m ;; k" := (bind m (fun _ => k))
  (at level 61, right associativity) : async_scope.
Open Scope async_scope.

(** A call whose only result is completion or failure. *)
Definition invoke (c : Call) (answer : History -> option JsError) : Async unit :=
  fun h =>
    match answer h with
    | None => (Returned tt, {| call := c; reply := Done |} :: h)
    | Some e => (Thrown e, {| call := c; reply := Failed e |} :: h)
    end.

(** [console.info / warn / error] and [context.log.warn / error]: recorded,
    never throws. *)
Definition console_log (level : LogLevel) (text : string) (err : option JsError)
  : Async unit :=
  fun h => (Returned tt, {| call := console level text err; reply := Done |} :: h).

(** [uuidv4()]: the drawn value is recorded with the call. *)
Definition call_uuidv4 (P : Platform) : Async string :=
  fun h =>
    let v := uuidv4_reply P h in
    (Returned v, {| call := uuidv4 v; reply := Done |} :: h).

(** [Buffer.byteLength(x)]: a [TypeError] unless [x] is a string or a buffer. *)
Definition Buffer_byteLength (x : Content) : Async nat :=
  match x with
  | CBuffer bytes => ret (List.length bytes)
  | CString s => ret (String.length s)
  | CUndefined =>
      throw "The string argument must be of type string or an instance of Buffer or ArrayBuffer. Received undefined"
  end.

(** ** Result objects *)

(** The object literals the handlers build and spread into each other; an
    absent property is [None]. *)
Record ResultObject := {
  fileName : JsString;
  success : option bool;
  storage : JsString;
  url : JsString;
  blobName : JsString;
  localPath : JsString;
  error : JsString;
  mockData : option bool
}.

Definition empty_object : ResultObject :=
  {| fileName := None; success := None; storage := None; url := None;
     blobName := None; localPath := None; error := None; mockData := None |}.

Definition or_else {A} (a b : option A) : option A :=
  match a with
  | Some _ => a
  | None => b
  end.

(** [{ ...base, ...over }]: properties of [over] win. *)
Definition spread (base over : ResultObject) : ResultObject :=
  {| fileName := or_else (fileName over) (fileName base);
     success := or_else (success over) (success base);
     storage := or_else (storage over) (storage base);
     url := or_else (url over) (url base);
     blobName := or_else (blobName over) (blobName base);
     localPath := or_else (localPath over) (localPath base);
     error := or_else (error over) (error base);
     mockData := or_else (mockData over) (mockData base) |}.

(** The name under which a stored file ends up: [blobName] of a blob
    result, [fileName] of a local one. *)
Definition generatedName (r : ResultObject) : JsString :=
  or_else (blobName r) (fileName r).

(** [results.push(entry)] *)
Definition push (results : list ResultObject) (entry : ResultObject)
  : list ResultObject :=
  (results ++ [entry])%list.

(** [{ fileName: name, ...result }] *)
Definition named_result (name : JsString) (result : ResultObject) : ResultObject :=
  spread {| fileName := name; success := None; storage := None; url := None;
            blobName := None; localPath := None; error := None;
            mockData := None |}
         result.

(** [{ fileName: name, success: false, error: message }] *)
Definition failure (name : string) (message : JsError) : ResultObject :=
  {| fileName := Some name; success := Some false;
     storage := None; url := None; blobName := None; localPath := None;
     error := Some message; mockData := None |}.

(** [for (const x of xs) { step }] where every [step] works on the
    [results] array built so far. *)
Fixpoint for_of {X} (step : X -> list ResultObject -> Async (list ResultObject))
         (xs : list X) (results : list ResultObject)
  : Async (list ResultObject) :=
  match xs with
  | [] => ret results
  | x :: rest =>
      results' <- step x results ;;
      for_of step rest results'
  end.

(** [context.res] of the function handlers. *)
Record ResponseBody := {
  body_message : JsString;
  body_error : JsString;
  body_details : JsString;
  body_mockMode : option bool;
  body_results : option (list ResultObject)
}.

Record Response := { status : nat; body : ResponseBody }.

Definition error_response (code : nat) (err details : string) : Response :=
  {| status := code;
     body := {| body_message := None; body_error := Some err;
                body_details := Some details; body_mockMode := None;
                body_results := None |} |}.

Definition results_response (msg : string) (results : list ResultObject) : Response :=
  {| status := 200;
     body := {| body_message := Some msg; body_error := None;
                body_details := None; body_mockMode := None;
                body_results := Some results |} |}.

(** ** src/functions/fileUpload/index.js *)

Module FileUpload.

Record FileUploadHandler := {
  connectionString : JsString;
  localUploadPath : string
}.

(** [constructor()] *)
Definition new_FileUploadHandler (P : Platform) (env : ProcessEnv) : FileUploadHandler :=
  {| connectionString := AzureStorageConnectionString env;
     localUploadPath :=
       js_or (LocalUploadPath env)
             (path_join P [dirname P; ".."; ".."; ".."; "uploads"]) |}.

Section Methods.
Variable P : Platform.
Variable this : FileUploadHandler.

Definition ensureLocalUploadPath : Async unit :=
  try_catch
    (invoke (fs_mkdir (localUploadPath this))
            (fun h => mkdir_reply P h (localUploadPath this)))
    (fun error =>
       console_log LogError "Error creating upload directory:" (Some error)).

Definition uploadToBlob (fileContent : Content) (fileName : string)
           (containerName : string) : Async ResultObject :=
  invoke (BlobServiceClient_fromConnectionString (connectionString this))
         (fun h => fromConnectionString_reply P h (connectionString this)) ;;
  invoke (containerClient_createIfNotExists containerName)
         (fun h => createIfNotExists_reply P h containerName) ;;
  uuid <- call_uuidv4 P ;;
  let blobName := uuid ++ "-" ++ fileName in
  len <- Buffer_byteLength fileContent ;;
  invoke (blockBlobClient_upload containerName blobName fileContent len)
         (fun h => upload_reply P h containerName blobName fileContent len) ;;
  ret {| fileName := None;
         success := Some true;
         storage := Some "blob";
         url := Some (blob_url P (connectionString this) containerName blobName);
         blobName := Some blobName;
         localPath := None; error := None; mockData := None |}.

Definition saveToLocal (fileContent : Content) (fileName : string)
  : Async ResultObject :=
  uuid <- call_uuidv4 P ;;
  let uniqueFileName := uuid ++ "-" ++ fileName in
  let filePath := path_join P [localUploadPath this; uniqueFileName] in
  invoke (fs_writeFile filePath fileContent)
         (fun h => writeFile_reply P h filePath fileContent) ;;
  ret {| fileName := Some uniqueFileName;
         success := Some true;
         storage := Some "local";
         url := None; blobName := None;
         localPath := Some filePath;
         error := None; mockData := None |}.

Definition uploadFile (fileContent : Content) (fileName : string)
  : Async ResultObject :=
  ensureLocalUploadPath ;;
  if truthy (connectionString this) then
    try_catch
      (uploadToBlob fileContent fileName "uploads")
      (fun error =>
         console_log LogWarn
           "Blob storage upload failed, falling back to local storage:"
           (Some error) ;;
         saveToLocal fileContent fileName)
  else
    console_log LogInfo
      "No Azure Storage connection string found, using local storage" None ;;
    saveToLocal fileContent fileName.

End Methods.

(** One part of a multipart request as the handler reads it. *)
Record UploadedFile := {
  buffer : Content;
  originalname : JsString
}.

(** [req.files]: missing ([None]) or an array of parts. *)
Record Request := { files : option (list UploadedFile) }.

(** The body of the [for] loop: one [try]/[catch] around one file,
    pushing exactly one entry on [results]. *)
Definition process_file (P : Platform) (fileHandler : FileUploadHandler)
           (file : UploadedFile) (results : list ResultObject)
  : Async (list ResultObject) :=
  try_catch
    (result <- uploadFile P fileHandler (buffer file)
                          (js_or (originalname file) "unnamed-file") ;;
     ret (push results (named_result (originalname file) result)))
    (fun error =>
       ret (push results
              (failure (js_or (originalname file) "unnamed-file") error))).

(** [for (const file of req.files) { ... }] *)
Definition process_files (P : Platform) (fileHandler : FileUploadHandler)
           (files : list UploadedFile) (results : list ResultObject)
  : Async (list ResultObject) :=
  for_of (process_file P fileHandler) files results.

(** [module.exports = async function (context, req)]; the value is
    [context.res]. *)
Definition handler (P : Platform) (env : ProcessEnv) (req : Request)
  : Async Response :=
  try_catch
    (let fileHandler := new_FileUploadHandler P env in
     match files req with
     | None | Some [] =>
         ret (error_response 400 "No files were uploaded"
                             "Request must include at least one file")
     | Some fs =>
         results <- process_files P fileHandler fs [] ;;
         ret (results_response "Files processed successfully" results)
     end)
    (fun error =>
       console_log LogError "Error processing file upload:" (Some error) ;;
       ret (error_response 500 "File upload failed" error)).

(** What [require('../fileUpload/index.js')] evaluates to: the value
    assigned to [module.exports] on line 74, which is the handler
    function. The class [FileUploadHandler] stays local to the module; the
    exported function object carries no property of that name. *)
Inductive Exported :=
| ExportedHandler (run : Platform -> ProcessEnv -> Request -> Async Response)
| ExportedClass (construct : Platform -> ProcessEnv -> FileUploadHandler).

Record ModuleExports := {
  exports_value : Exported;
  exports_properties : list (string * Exported)
}.

Definition module_exports : ModuleExports :=
  {| exports_value := ExportedHandler handler;
     exports_properties := [] |}.

End FileUpload.

(** ** SharePoint file references and the Graph client *)

(** One element of the [files] array of a SharePoint request: an object
    whose four properties may each be missing or empty. *)
Module File.
Record t := {
  siteId : JsString;
  driveId : JsString;
  itemId : JsString;
  fileName : JsString
}.
End File.

(** A value interpolated in a template literal. *)
Definition interpolate (v : JsString) : string :=
  match v with
  | Some s => s
  | None => "undefined"
  end.

(** [!siteId || !driveId || !itemId || !fileName] *)
Definition missing_field (file : File.t) : bool :=
  negb (truthy (File.siteId file)) || negb (truthy (File.driveId file))
  || negb (truthy (File.itemId file)) || negb (truthy (File.fileName file)).

(** [client.api(path).get()]: one remote read, the token request of the
    auth provider included. *)
Definition call_graph_get (P : Platform) (apiPath : string) : Async Content :=
  fun h =>
    match graph_get_reply P h apiPath with
    | inr content =>
        (Returned content, {| call := graph_api_get apiPath; reply := Done |} :: h)
    | inl e =>
        (Thrown e, {| call := graph_api_get apiPath; reply := Failed e |} :: h)
    end.

(** The entry pushed for a reference that fails validation. *)
Definition missing_information (file : File.t) : ResultObject :=
  failure (js_or (File.fileName file) "unknown")
          "Missing required SharePoint file information".

(** The entry pushed by the per-file [catch]. *)
Definition failed_entry (file : File.t) (message : JsError) : ResultObject :=
  failure (js_or (File.fileName file) "unknown") message.

(** ** src/functions/sharePointUpload/index.js *)

Module SharePointUpload.

(** [const { FileUploadHandler } = require('../fileUpload/index.js')]:
    the property of that name on the exported value, [undefined] when
    there is none. *)
Fixpoint get_property (name : string)
         (properties : list (string * FileUpload.Exported))
  : option FileUpload.Exported :=
  match properties with
  | [] => None
  | (key, value) :: rest =>
      if String.eqb key name then Some value else get_property name rest
  end.

Definition FileUploadHandler : option FileUpload.Exported :=
  get_property "FileUploadHandler"
               (FileUpload.exports_properties FileUpload.module_exports).

(** [new C()] for an imported binding [C]. *)
Definition construct (binding : option FileUpload.Exported)
           (P : Platform) (env : ProcessEnv)
  : Async FileUpload.FileUploadHandler :=
  match binding with
  | Some (FileUpload.ExportedClass new_handler) => ret (new_handler P env)
  | Some (FileUpload.ExportedHandler _) | None =>
      throw "FileUploadHandler is not a constructor"
  end.

(** The Graph client holds the credential it was built from. *)
Record GraphClient := {
  tenantId : string;
  clientId : string;
  clientSecret : string
}.

Record SharePointHandler := { client : option GraphClient }.

(** [constructor()]: without the three variables the instance is left
    without a [client]. *)
Definition new_SharePointHandler (P : Platform) (env : ProcessEnv)
  : Async SharePointHandler :=
  if negb (truthy (SHAREPOINT_CLIENT_ID env))
     || negb (truthy (SHAREPOINT_CLIENT_SECRET env))
     || negb (truthy (SHAREPOINT_TENANT_ID env))
  then ret {| client := None |}
  else
    invoke (new_ClientSecretCredential (SHAREPOINT_TENANT_ID env)
              (SHAREPOINT_CLIENT_ID env) (SHAREPOINT_CLIENT_SECRET env))
           (fun h => credential_reply P h (SHAREPOINT_TENANT_ID env)
                       (SHAREPOINT_CLIENT_ID env) (SHAREPOINT_CLIENT_SECRET env)) ;;
    ret {| client :=
             Some {| tenantId := interpolate (SHAREPOINT_TENANT_ID env);
                     clientId := interpolate (SHAREPOINT_CLIENT_ID env);
                     clientSecret := interpolate (SHAREPOINT_CLIENT_SECRET env) |} |}.

Definition getFileFromSharePoint (P : Platform) (this : SharePointHandler)
           (siteId driveId itemId : JsString) : Async Content :=
  match client this with
  | None => throw "SharePoint client not initialized - missing credentials"
  | Some _ =>
      try_catch
        (call_graph_get P
           ("/sites/" ++ interpolate siteId ++ "/drives/" ++ interpolate driveId
            ++ "/items/" ++ interpolate itemId ++ "/content"))
        (fun error => throw ("Failed to fetch file from SharePoint: " ++ error))
  end.

Record RequestBody := { files : option (list File.t) }.

(** [req]: [req.body] may be absent; [req.body?.files] is then
    [undefined]. *)
Module Req.
Record t := { body : option RequestBody }.
End Req.

(** [req.body?.files] *)
Definition requested_files (req : Req.t) : option (list File.t) :=
  match Req.body req with
  | Some b => files b
  | None => None
  end.

Definition mock_response (P : Platform) (env : ProcessEnv) : Response :=
  {| status := 200;
     body :=
       {| body_message :=
            Some "SharePoint integration not configured. Using mock data.";
          body_error := None;
          body_details := None;
          body_mockMode := Some true;
          body_results :=
            Some [{| fileName := Some "mock-file.txt";
                     success := Some true;
                     storage := Some "local";
                     url := None; blobName := None;
                     localPath :=
                       Some (path_join P [js_or (LocalUploadPath env) "uploads";
                                          "mock-file.txt"]);
                     error := None;
                     mockData := Some true |}] |} |}.

(** The body of the [for] loop. *)
Definition process_file (P : Platform) (sharePointHandler : SharePointHandler)
           (fileHandler : FileUpload.FileUploadHandler)
           (file : File.t) (results : list ResultObject)
  : Async (list ResultObject) :=
  try_catch
    (if missing_field file then
       ret (push results (missing_information file))
     else
       fileContent <- getFileFromSharePoint P sharePointHandler
                        (File.siteId file) (File.driveId file) (File.itemId file) ;;
       result <- FileUpload.uploadFile P fileHandler fileContent
                   (interpolate (File.fileName file)) ;;
       ret (push results (named_result (File.fileName file) result)))
    (fun error => ret (push results (failed_entry file error))).

Definition process_files (P : Platform) (sharePointHandler : SharePointHandler)
           (fileHandler : FileUpload.FileUploadHandler)
           (files : list File.t) (results : list ResultObject)
  : Async (list ResultObject) :=
  for_of (process_file P sharePointHandler fileHandler) files results.

(** The handler, for a given value of the imported [FileUploadHandler]
    binding. *)
Definition handler_with (binding : option FileUpload.Exported)
           (P : Platform) (env : ProcessEnv) (req : Req.t)
  : Async Response :=
  try_catch
    (if negb (truthy (SHAREPOINT_CLIENT_ID env))
        || negb (truthy (SHAREPOINT_CLIENT_SECRET env))
     then
       console_log LogWarn
         "SharePoint credentials not configured, using mock data" None ;;
       ret (mock_response P env)
     else
       match requested_files req with
       | None | Some [] =>
           ret (error_response 400 "No files provided"
                  "Request must include an array of SharePoint files")
       | Some fs =>
           sharePointHandler <- new_SharePointHandler P env ;;
           fileHandler <- construct binding P env ;;
           results <- process_files P sharePointHandler fileHandler fs [] ;;
           ret (results_response "SharePoint files processed" results)
       end)
    (fun error =>
       console_log LogError "SharePoint upload error:" (Some error) ;;
       ret (error_response 500 "SharePoint upload failed" error)).

(** [module.exports = async function (context, req)] *)
Definition handler : Platform -> ProcessEnv -> Req.t -> Async Response :=
  handler_with FileUploadHandler.

End SharePointUpload.

(** ** The older single-file variant (unnamed/part_000)

    Its upload handler class has no [uploadFile]; the handlers of that file
    store through [uploadToBlob], which carries the fallback itself and
    returns the URL or the local path as a plain string. *)

Module Part000.

Record FileUploadHandler := {
  connectionString : JsString;
  localUploadPath : string
}.

(** [fileContent.length] *)
Definition content_length (fileContent : Content) : Async nat :=
  match fileContent with
  | CBuffer bytes => ret (List.length bytes)
  | CString s => ret (String.length s)
  | CUndefined => throw "Cannot read properties of undefined (reading 'length')"
  end.

Section Methods.
Variable P : Platform.
Variable this : FileUploadHandler.

Definition ensureLocalUploadPath : Async unit :=
  try_catch
    (invoke (fs_mkdir (localUploadPath this))
            (fun h => mkdir_reply P h (localUploadPath this)))
    (fun error =>
       console_log LogError "Error creating upload directory:" (Some error)).

Definition saveToLocal (fileContent : Content) (fileName : string)
  : Async string :=
  try_catch
    (let filePath := path_join P [localUploadPath this; fileName] in
     invoke (fs_writeFile filePath fileContent)
            (fun h => writeFile_reply P h filePath fileContent) ;;
     ret filePath)
    (fun error =>
       console_log LogError "Failed to save file locally:" (Some error) ;;
       throw error).

Definition uploadToBlob (fileContent : Content) (fileName : string)
           (containerName : string) : Async string :=
  try_catch
    (invoke (BlobServiceClient_fromConnectionString (connectionString this))
            (fun h => fromConnectionString_reply P h (connectionString this)) ;;
     invoke (containerClient_createIfNotExists containerName)
            (fun h => createIfNotExists_reply P h containerName) ;;
     len <- content_length fileContent ;;
     invoke (blockBlobClient_upload containerName fileName fileContent len)
            (fun h => upload_reply P h containerName fileName fileContent len) ;;
     ret (blob_url P (connectionString this) containerName fileName))
    (fun error =>
       console_log LogError "Failed to upload to blob storage:" (Some error) ;;
       saveToLocal fileContent fileName).

End Methods.

(** [constructor()]: the directory creation is started here and not
    awaited; its events are placed at the point where it is started. *)
Definition new_FileUploadHandler (P : Platform) (env : ProcessEnv)
  : Async FileUploadHandler :=
  let this := {| connectionString := AzureStorageConnectionString env;
                 localUploadPath := js_or (LocalUploadPath env) "uploads" |} in
  ensureLocalUploadPath P this ;;
  ret this.

End Part000.

(** ** The ES-module single-file variant (unnamed/part_001) *)

Module Part001.

(** Private fields [#connectionString] and [#localUploadPath]. *)
Record FileUploadHandler := {
  connectionString : JsString;
  localUploadPath : string
}.

Section Methods.
Variable P : Platform.
Variable this : FileUploadHandler.

(** [#initializeStorage] *)
Definition initializeStorage : Async unit :=
  try_catch
    (invoke (fs_mkdir (localUploadPath this))
            (fun h => mkdir_reply P h (localUploadPath this)))
    (fun error =>
       console_log LogError "Error creating upload directory:" (Some error)).

(** [#uploadToBlob] *)
Definition uploadToBlob (fileContent : Content) (fileName : string)
           (containerName : string) : Async ResultObject :=
  invoke (BlobServiceClient_fromConnectionString (connectionString this))
         (fun h => fromConnectionString_reply P h (connectionString this)) ;;
  invoke (containerClient_createIfNotExists containerName)
         (fun h => createIfNotExists_reply P h containerName) ;;
  uuid <- call_uuidv4 P ;;
  let blobName := uuid ++ "-" ++ fileName in
  len <- Buffer_byteLength fileContent ;;
  invoke (blockBlobClient_upload containerName blobName fileContent len)
         (fun h => upload_reply P h containerName blobName fileContent len) ;;
  ret {| fileName := None;
         success := Some true;
         storage := Some "blob";
         url := Some (blob_url P (connectionString this) containerName blobName);
         blobName := Some blobName;
         localPath := None; error := None; mockData := None |}.

(** [#saveToLocal] *)
Definition saveToLocal (fileContent : Content) (fileName : string)
  : Async ResultObject :=
  uuid <- call_uuidv4 P ;;
  let uniqueFileName := uuid ++ "-" ++ fileName in
  let filePath := path_join P [localUploadPath this; uniqueFileName] in
  invoke (fs_writeFile filePath fileContent)
         (fun h => writeFile_reply P h filePath fileContent) ;;
  ret {| fileName := Some uniqueFileName;
         success := Some true;
         storage := Some "local";
         url := None; blobName := None;
         localPath := Some filePath;
         error := None; mockData := None |}.

Definition uploadFile (fileContent : Content) (fileName : string)
  : Async ResultObject :=
  if truthy (connectionString this) then
    try_catch
      (uploadToBlob fileContent fileName "uploads")
      (fun error =>
         console_log LogWarn
           "Blob storage upload failed, falling back to local storage:"
           (Some error) ;;
         saveToLocal fileContent fileName)
  else
    console_log LogInfo
      "No Azure Storage connection string found, using local storage" None ;;
    saveToLocal fileContent fileName.

End Methods.

(** [constructor()]: [#initializeStorage()] is started and not awaited. *)
Definition new_FileUploadHandler (P : Platform) (env : ProcessEnv)
  : Async FileUploadHandler :=
  let this := {| connectionString := AzureStorageConnectionString env;
                 localUploadPath :=
                   js_or (LocalUploadPath env)
                         (path_join P [dirname P; ".."; ".."; "uploads"]) |} in
  initializeStorage P this ;;
  ret this.

(** The members reachable as [fileHandler.name] from outside the class
    body: [uploadFile] alone, every other method being [#]-private. *)
Definition public_method (name : string)
  : option (Platform -> FileUploadHandler -> Content -> string -> Async ResultObject) :=
  if String.eqb name "uploadFile" then Some uploadFile else None.

(** [fileHandler.name(fileContent, fileName)] *)
Definition call_method (name : string) (P : Platform)
           (fileHandler : FileUploadHandler)
           (fileContent : Content) (fileName : string) : Async ResultObject :=
  match public_method name with
  | Some method => method P fileHandler fileContent fileName
  | None => throw ("fileHandler." ++ name ++ " is not a function")
  end.

(** The SharePoint handler of this file always builds its credential. *)
Definition new_SharePointHandler (P : Platform) (env : ProcessEnv) : Async unit :=
  invoke (new_ClientSecretCredential (SHAREPOINT_TENANT_ID env)
            (SHAREPOINT_CLIENT_ID env) (SHAREPOINT_CLIENT_SECRET env))
         (fun h => credential_reply P h (SHAREPOINT_TENANT_ID env)
                     (SHAREPOINT_CLIENT_ID env) (SHAREPOINT_CLIENT_SECRET env)).

Definition getFileFromSharePoint (P : Platform)
           (siteId driveId itemId : JsString) : Async Content :=
  try_catch
    (call_graph_get P
       ("/sites/" ++ interpolate siteId ++ "/drives/" ++ interpolate driveId
        ++ "/items/" ++ interpolate itemId ++ "/content"))
    (fun error =>
       console_log LogError "SharePoint file fetch failed:" (Some error) ;;
       throw error).

Record RequestBody := { files : option (list File.t) }.

(** [await request.json()]: a parse failure, [null], or an object. *)
Record Request := { json : JsError + option RequestBody }.

Definition request_json (request : Request) : Async RequestBody :=
  match json request with
  | inl e => throw e
  | inr None => throw "Cannot destructure property 'files' of null"
  | inr (Some parsed) => ret parsed
  end.

Definition process_file (P : Platform) (fileHandler : FileUploadHandler)
           (file : File.t) (results : list ResultObject)
  : Async (list ResultObject) :=
  try_catch
    (if missing_field file then
       ret (push results (missing_information file))
     else
       fileContent <- getFileFromSharePoint P
                        (File.siteId file) (File.driveId file) (File.itemId file) ;;
       uploadResult <- call_method "uploadToBlob" P fileHandler fileContent
                         (interpolate (File.fileName file)) ;;
       ret (push results (named_result (File.fileName file) uploadResult)))
    (fun error => ret (push results (failed_entry file error))).

Definition process_files (P : Platform) (fileHandler : FileUploadHandler)
           (files : list File.t) (results : list ResultObject)
  : Async (list ResultObject) :=
  for_of (process_file P fileHandler) files results.

(** [app.http('sharePointUpload', { handler })] *)
Definition sharePointUpload (P : Platform) (env : ProcessEnv) (request : Request)
  : Async Response :=
  try_catch
    (parsed <- request_json request ;;
     match files parsed with
     | None | Some [] =>
         ret {| status := 400;
                body := {| body_message := None;
                           body_error :=
                             Some "Invalid request. Expected array of SharePoint files";
                           body_details := None; body_mockMode := None;
                           body_results := None |} |}
     | Some fs =>
         new_SharePointHandler P env ;;
         fileHandler <- new_FileUploadHandler P env ;;
         results <- process_files P fileHandler fs [] ;;
         ret (results_response "SharePoint files processed" results)
     end)
    (fun error =>
       console_log LogError "SharePoint upload error:" (Some error) ;;
       ret (error_response 500 "SharePoint upload failed" error)).

End Part001.

(** ** The HTTP handlers of the single-file variants *)

(** One entry of [request.parseFormData()] as the handlers read it:
    [file.length], [file.buffer], [file.filename]. *)
Module FormFile.
Record t := {
  length : option nat;
  buffer : Content;
  filename : string
}.
End FormFile.

(** [if (file.length)]: [undefined] and [0] are falsy. *)
Definition has_length (file : FormFile.t) : bool :=
  match FormFile.length file with
  | Some (S _) => true
  | _ => false
  end.

(** [{ status, jsonBody }] of the part_000 handlers, whose body is
    [{ message, files }] or [{ error }]. *)
Module JsonBody.
Record t := {
  message : JsString;
  files : option (list ResultObject);
  error : JsString
}.
End JsonBody.

Module HttpResponse.
Record t := { status : nat; jsonBody : JsonBody.t }.
End HttpResponse.

Definition files_response (message : string) (filesData : list ResultObject)
  : HttpResponse.t :=
  {| HttpResponse.status := 200;
     HttpResponse.jsonBody :=
       {| JsonBody.message := Some message;
          JsonBody.files := Some filesData;
          JsonBody.error := None |} |}.

Definition error_only_response (code : nat) (message : string) : HttpResponse.t :=
  {| HttpResponse.status := code;
     HttpResponse.jsonBody :=
       {| JsonBody.message := None;
          JsonBody.files := None;
          JsonBody.error := Some message |} |}.

(** [{ fileName, url }], [{ fileName, localPath }] and [{ fileName, error }] *)
Definition url_entry (name addr : string) : ResultObject :=
  {| fileName := Some name; success := None; storage := None;
     url := Some addr; blobName := None; localPath := None;
     error := None; mockData := None |}.

Definition localPath_entry (name filePath : string) : ResultObject :=
  {| fileName := Some name; success := None; storage := None;
     url := None; blobName := None; localPath := Some filePath;
     error := None; mockData := None |}.

Definition error_entry (name : string) (message : JsError) : ResultObject :=
  {| fileName := Some name; success := None; storage := None;
     url := None; blobName := None; localPath := None;
     error := Some message; mockData := None |}.

(** [context.error(text, error)] *)
Definition context_error (text : string) (err : JsError) : Async unit :=
  console_log LogError text (Some err).

(** The rest of unnamed/part_000: its SharePoint handler class and its two
    HTTP functions. A form part is taken to carry a [filename] and a
    SharePoint reference a [name]. *)
Module Part000Http.

(** The variables the SharePoint class of this file reads. *)
Record SharePointEnv := {
  SharePointTenantId : JsString;
  SharePointClientId : JsString;
  SharePointClientSecret : JsString
}.

(** [new SharePointHandler()]: the credential is always constructed. *)
Definition new_SharePointHandler (P : Platform) (sp : SharePointEnv) : Async unit :=
  invoke (new_ClientSecretCredential (SharePointTenantId sp)
            (SharePointClientId sp) (SharePointClientSecret sp))
         (fun h => credential_reply P h (SharePointTenantId sp)
                     (SharePointClientId sp) (SharePointClientSecret sp)).

Definition getFileFromSharePoint (P : Platform) (driveId itemId : JsString)
  : Async Content :=
  try_catch
    (call_graph_get P
       ("/drives/" ++ interpolate driveId ++ "/items/" ++ interpolate itemId
        ++ "/content"))
    (fun error =>
       console_log LogError "Error fetching file from SharePoint:" (Some error) ;;
       throw error).

(** The body of the loop of [uploadFiles]. *)
Definition upload_part (P : Platform) (fileHandler : Part000.FileUploadHandler)
           (file : FormFile.t) (filesData : list ResultObject)
  : Async (list ResultObject) :=
  if has_length file then
    let fileContent := FormFile.buffer file in
    let fileName := FormFile.filename file in
    try_catch
      (fileUrl <- Part000.uploadToBlob P fileHandler fileContent fileName "uploads" ;;
       ret (push filesData (url_entry fileName fileUrl)))
      (fun _ =>
         localPath <- Part000.saveToLocal P fileHandler fileContent fileName ;;
         ret (push filesData (localPath_entry fileName localPath)))
  else ret filesData.

(** [request.parseFormData()]: a rejection, or the parts in order. *)
Record FormRequest := { parseFormData : JsError + list FormFile.t }.

Definition await_result {A} (result : JsError + A) : Async A :=
  match result with
  | inl e => throw e
  | inr a => ret a
  end.

(** [app.http('uploadFiles', { handler })] *)
Definition uploadFiles (P : Platform) (env : ProcessEnv) (request : FormRequest)
  : Async HttpResponse.t :=
  try_catch
    (fileHandler <- Part000.new_FileUploadHandler P env ;;
     files <- await_result (parseFormData request) ;;
     filesData <- for_of (upload_part P fileHandler) files [] ;;
     ret (files_response "Files uploaded successfully" filesData))
    (fun error =>
       context_error "Error processing file upload:" error ;;
       ret (error_only_response 500 error)).

(** One element of [sharePointFiles]. *)
Module Item.
Record t := {
  driveId : JsString;
  itemId : JsString;
  name : string
}.
End Item.

(** [await request.json()]: a parse failure, [null], or an object whose
    [sharePointFiles] is missing or an array. *)
Record JsonRequest := { json : JsError + option (option (list Item.t)) }.

Definition request_json (request : JsonRequest) : Async (option (list Item.t)) :=
  match json request with
  | inl e => throw e
  | inr None => throw "Cannot destructure property 'sharePointFiles' of null"
  | inr (Some sharePointFiles) => ret sharePointFiles
  end.

(** The body of the loop of [sharePointUpload]. *)
Definition process_item (P : Platform) (fileHandler : Part000.FileUploadHandler)
           (file : Item.t) (filesData : list ResultObject)
  : Async (list ResultObject) :=
  try_catch
    (fileContent <- getFileFromSharePoint P (Item.driveId file) (Item.itemId file) ;;
     try_catch
       (fileUrl <- Part000.uploadToBlob P fileHandler fileContent (Item.name file)
                     "uploads" ;;
        ret (push filesData (url_entry (Item.name file) fileUrl)))
       (fun _ =>
          localPath <- Part000.saveToLocal P fileHandler fileContent (Item.name file) ;;
          ret (push filesData (localPath_entry (Item.name file) localPath))))
    (fun error =>
       context_error ("Failed to process SharePoint file " ++ Item.name file ++ ":")
                     error ;;
       ret (push filesData (error_entry (Item.name file) error))).

(** [app.http('sharePointUpload', { handler })] *)
Definition sharePointUpload (P : Platform) (env : ProcessEnv) (sp : SharePointEnv)
           (request : JsonRequest) : Async HttpResponse.t :=
  try_catch
    (sharePointFiles <- request_json request ;;
     match sharePointFiles with
     | None | Some [] =>
         ret (error_only_response 400 "No SharePoint files provided")
     | Some items =>
         new_SharePointHandler P sp ;;
         fileHandler <- Part000.new_FileUploadHandler P env ;;
         filesData <- for_of (process_item P fileHandler) items [] ;;
         ret (files_response "SharePoint files processed" filesData)
     end)
    (fun error =>
       context_error "Error processing SharePoint upload:" error ;;
       ret (error_only_response 500 error)).

End Part000Http.

(** The direct-upload function of unnamed/part_001. *)
Module Part001Http.

Record FormRequest := { parseFormData : JsError + list FormFile.t }.

(** The body of the loop of [fileUpload]: no [try] around the call. *)
Definition upload_part (P : Platform) (fileHandler : Part001.FileUploadHandler)
           (file : FormFile.t) (results : list ResultObject)
  : Async (list ResultObject) :=
  if has_length file then
    result <- Part001.call_method "uploadToBlob" P fileHandler
                (FormFile.buffer file) (FormFile.filename file) ;;
    ret (push results (named_result (Some (FormFile.filename file)) result))
  else ret results.

(** [app.http('fileUpload', { handler })] *)
Definition fileUpload (P : Platform) (env : ProcessEnv) (request : FormRequest)
  : Async Response :=
  try_catch
    (fileHandler <- Part001.new_FileUploadHandler P env ;;
     files <- Part000Http.await_result (parseFormData request) ;;
     results <- for_of (upload_part P fileHandler) files [] ;;
     ret (results_response "Files processed successfully" results))
    (fun error =>
       context_error "File upload error:" error ;;
       ret (error_response 500 "File upload failed" error)).

End Part001Http.

(** ** The command-line scripts: scripts/config.js and setup.js

    The scripts talk to the file system, the terminal and the process
    itself; their calls are answered by a platform of their own and recorded
    in a trace. [JSON.parse], [JSON.stringify] and [dotenv.parse] belong to
    the platform. *)

Module Script.

(** A caught error: [error.code] and [error.message]. *)
Record Error := { code : JsString; message : string }.

Inductive Call :=
| readFile (path : string)
| writeFile (path data : string)
| access (path : string)
| copyFile (src dest : string)
| mkdir (path : string)
| question (query answer : string)
| console_log (text : string)
| console_error (text : string) (err : option Error)
| require (id : string)
| readline_close
| process_exit (exitCode : nat).

(** A call and the error it failed with, if it failed. *)
Record Event := { call : Call; failure : option Error }.

(** Newest event first. *)
Definition Trace := list Event.

(** A value of [settings.Values]: a string, [null], or any other JSON
    value, kept as its text. *)
Inductive SettingValue :=
| VString (s : string)
| VNull
| VOther (json : string).

(** The object read from local.settings.json: its [Values] property,
    missing ([None]) or an object given by its entries in
    [Object.entries] order, and its other properties. *)
Record Settings := {
  Values : option (list (string * SettingValue));
  other_properties : list (string * string)
}.

(** What [JSON.parse] can return. *)
Inductive Parsed :=
| ParsedNull
| ParsedScalarOrArray
| ParsedObject (settings : Settings).

Record Platform := {
  readFile_reply : Trace -> string -> Error + string;
  writeFile_reply : Trace -> string -> string -> option Error;
  access_reply : Trace -> string -> option Error;
  copyFile_reply : Trace -> string -> string -> option Error;
  mkdir_reply : Trace -> string -> option Error;
  question_reply : Trace -> string -> string;
  require_reply : Trace -> string -> option Error;
  path_join : list string -> string;
  (** [dotenv.parse(text)[key]], [None] when that read is falsy. *)
  dotenv_parse : string -> string -> option SettingValue;
  JSON_parse : string -> Error + Parsed;
  JSON_stringify : Settings -> string;
  (** [__dirname] of scripts/config.js and of setup.js. *)
  config_dirname : string;
  setup_dirname : string
}.

(** The process can also end inside a computation. *)
Inductive Outcome (A : Type) :=
| Returned (a : A)
| Thrown (e : Error)
| Exited (exitCode : nat).
Arguments Returned {A} a.
Arguments Thrown {A} e.
Arguments Exited {A} exitCode.

Definition Run (A : Type) := Trace -> Outcome A * Trace.

Definition ret {A} (a : A) : Run A := fun t => (Returned a, t).

Definition throw {A} (e : Error) : Run A := fun t => (Thrown e, t).

Definition bind {A B} (m : Run A) (k : A -> Run B) : Run B :=
  fun t =>
    match m t with
    | (Returned a, t1) => k a t1
    | (Thrown e, t1) => (Thrown e, t1)
    | (Exited c, t1) => (Exited c, t1)
    end.

(** [try { m } catch (error) { handler error }] *)
Definition try_catch {A} (m : Run A) (handler : Error -> Run A) : Run A :=
  fun t =>
    match m t with
    | (Thrown e, t1) => handler e t1
    | other => other
    end.

(** [try { m } finally { cleanup }]: the cleanup runs unless the process
    has exited. *)
Definition try_finally {A} (m : Run A) (cleanup : Run unit) : Run A :=
  fun t =>
    match m t with
    | (Exited c, t1) => (Exited c, t1)
    | (o, t1) =>
        match cleanup t1 with
        | (Returned _, t2) => (o, t2)
        | (Thrown e, t2) => (Thrown e, t2)
        | (Exited c, t2) => (Exited c, t2)
        end
    end.

Declare Scope script_scope.
Delimit Scope script_scope with script.
Notation "x <- m ;; k" := (bind m (fun x => k))
  (at level 61, m at next level, right associativity) : script_scope.
Notation "m ;; k" := (bind m (fun _ => k))
  (at level 61, right associativity) : script_scope.
Local Open Scope script_scope.

Definition invoke (c : Call) (answer : Trace -> option Error) : Run unit :=
  fun t =>
    match answer t with
    | None => (Returned tt, {| call := c; failure := None |} :: t)
    | Some e => (Thrown e, {| call := c; failure := Some e |} :: t)
    end.

(** A call that cannot fail. *)
Definition perform (c : Call) : Run unit :=
  fun t => (Returned tt, {| call := c; failure := None |} :: t).

(** [process.exit(code)] *)
Definition exit {A} (exitCode : nat) : Run A :=
  fun t => (Exited exitCode, {| call := process_exit exitCode; failure := None |} :: t).

(** [await fs.readFile(path)] *)
Definition read (P : Platform) (path : string) : Run string :=
  fun t =>
    match readFile_reply P t path with
    | inr text => (Returned text, {| call := readFile path; failure := None |} :: t)
    | inl e => (Thrown e, {| call := readFile path; failure := Some e |} :: t)
    end.

(** [await question(query)] *)
Definition ask (P : Platform) (query : string) : Run string :=
  fun t =>
    let answer := question_reply P t query in
    (Returned answer, {| call := question query answer; failure := None |} :: t).

Definition TypeError (text : string) : Error :=
  {| code := None; message := text |}.

(** *** scripts/config.js *)

(** [value.startsWith('%') && value.endsWith('%')] *)
Definition startsWith_percent (value : string) : bool :=
  match String.get 0 value with
  | Some c => Ascii.eqb c "%"
  | None => false
  end.

Definition endsWith_percent (value : string) : bool :=
  match String.get (String.length value - 1) value with
  | Some c => Ascii.eqb c "%"
  | None => false
  end.

(** [value.slice(1, -1)] *)
Definition slice_1_minus_1 (value : string) : string :=
  String.substring 1 (String.length value - 2) value.

(** [settings.Values[key] = value] *)
Fixpoint assign (key : string) (value : SettingValue)
         (values : list (string * SettingValue)) : list (string * SettingValue) :=
  match values with
  | [] => [(key, value)]
  | (k, old) :: rest =>
      if String.eqb k key then (k, value) :: rest
      else (k, old) :: assign key value rest
  end.

(** The loop over [Object.entries(settings.Values)]: [entries] is the
    snapshot being walked, [values] the object being updated. *)
Fixpoint update_values (envConfig : string -> option SettingValue)
         (entries values : list (string * SettingValue))
  : Error + list (string * SettingValue) :=
  match entries with
  | [] => inr values
  | (key, value) :: rest =>
      match value with
      | VString s =>
          if startsWith_percent s && endsWith_percent s then
            let envKey := slice_1_minus_1 s in
            match envConfig envKey with
            | Some replacement =>
                update_values envConfig rest (assign key replacement values)
            | None => update_values envConfig rest values
            end
          else update_values envConfig rest values
      | VNull =>
          inl (TypeError "Cannot read properties of null (reading 'startsWith')")
      | VOther _ => inl (TypeError "value.startsWith is not a function")
      end
  end.

Definition lift {A} (result : Error + A) : Run A :=
  match result with
  | inl e => throw e
  | inr a => ret a
  end.

(** [settings.Values] of the parsed text, read for [Object.entries]. *)
Definition entries_of (parsed : Parsed) : Error + (Settings * list (string * SettingValue)) :=
  match parsed with
  | ParsedNull => inl (TypeError "Cannot read properties of null (reading 'Values')")
  | ParsedScalarOrArray => inl (TypeError "Cannot convert undefined or null to object")
  | ParsedObject settings =>
      match Values settings with
      | None => inl (TypeError "Cannot convert undefined or null to object")
      | Some values => inr (settings, values)
      end
  end.

(** [error.code === name] *)
Definition code_is (error : Error) (name : string) : bool :=
  match code error with
  | Some c => String.eqb c name
  | None => false
  end.

Definition quote : string := String (ascii_of_nat 34) EmptyString.

Definition not_found_message : string :=
  "Error: Required configuration files not found. Please run "
  ++ quote ++ "npm run setup" ++ quote ++ " first.".

Definition updateLocalSettings (P : Platform) : Run unit :=
  try_catch
    (let envPath := path_join P [config_dirname P; ".."; ".env"] in
     envText <- read P envPath ;;
     let envConfig := dotenv_parse P envText in
     let settingsPath := path_join P [config_dirname P; ".."; "local.settings.json"] in
     settingsText <- read P settingsPath ;;
     parsed <- lift (JSON_parse P settingsText) ;;
     found <- lift (entries_of parsed) ;;
     let settings := fst found in
     let values := snd found in
     updated <- lift (update_values envConfig values values) ;;
     let settings' := {| Values := Some updated;
                         other_properties := other_properties settings |} in
     invoke (writeFile settingsPath (JSON_stringify P settings'))
            (fun t => writeFile_reply P t settingsPath (JSON_stringify P settings')) ;;
     perform (console_log
                "Successfully updated local.settings.json with environment variables"))
    (fun error =>
       (if code_is error "ENOENT"
        then perform (console_error not_found_message None)
        else perform (console_error "Error updating configuration:" (Some error))) ;;
       exit 1).

(** *** setup.js *)

Definition newline : string := String (ascii_of_nat 10) EmptyString.

(** [exists(path)] *)
Definition exists_ (P : Platform) (path : string) : Run bool :=
  try_catch
    (invoke (access path) (fun t => access_reply P t path) ;;
     ret true)
    (fun _ => ret false).

(** The body of the loop over [dirs]. *)
Definition ensure_dir (P : Platform) (dir : string) : Run unit :=
  let dirPath := path_join P [setup_dirname P; dir] in
  present <- exists_ P dirPath ;;
  if negb present then
    invoke (mkdir dirPath) (fun t => mkdir_reply P t dirPath) ;;
    perform (console_log ("Created " ++ dir ++ " directory"))
  else ret tt.

Fixpoint for_each_dir (P : Platform) (dirs : list string) : Run unit :=
  match dirs with
  | [] => ret tt
  | dir :: rest => ensure_dir P dir ;; for_each_dir P rest
  end.

(** The loop that builds [envContent] from [Object.entries(config)]. *)
Fixpoint build_envContent (entries : list (string * string)) (envContent : string)
  : string :=
  match entries with
  | [] => envContent
  | (key, value) :: rest =>
      if String.eqb value EmptyString then build_envContent rest envContent
      else build_envContent rest (envContent ++ key ++ "=" ++ value ++ newline)
  end.

(** The [config] object for the seven answers, in property order. *)
Definition config_entries (connectionString containerName tenantId clientId
                           clientSecret siteUrl instrumentationKey : string)
  : list (string * string) :=
  [ ("AZURE_STORAGE_CONNECTION_STRING", connectionString);
    ("AZURE_STORAGE_CONTAINER_NAME", js_or (Some containerName) "uploads");
    ("SHAREPOINT_TENANT_ID", tenantId);
    ("SHAREPOINT_CLIENT_ID", clientId);
    ("SHAREPOINT_CLIENT_SECRET", clientSecret);
    ("SHAREPOINT_SITE_URL", siteUrl);
    ("LOCAL_UPLOAD_PATH", "uploads");
    ("MAX_FILE_SIZE", "10485760");
    ("FUNCTION_TIMEOUT", "300000");
    ("APPINSIGHTS_INSTRUMENTATIONKEY", instrumentationKey) ].

Definition setup (P : Platform) : Run unit :=
  try_finally
    (try_catch
       (perform (console_log "Azure Function App - Setup Script") ;;
        perform (console_log ("================================" ++ newline)) ;;
        let envPath := path_join P [setup_dirname P; ".env"] in
        let envExamplePath := path_join P [setup_dirname P; ".env.example"] in
        envExists <- exists_ P envPath ;;
        copy <- (if negb envExists then exists_ P envExamplePath else ret false) ;;
        (if copy then
           invoke (copyFile envExamplePath envPath)
                  (fun t => copyFile_reply P t envExamplePath envPath) ;;
           perform (console_log "Created .env file from .env.example")
         else ret tt) ;;
        for_each_dir P ["uploads"; "scripts"] ;;
        connectionString <-
          ask P "Enter Azure Storage Connection String (leave empty for local storage only): " ;;
        containerName <-
          ask P "Enter Azure Storage Container Name (default: uploads): " ;;
        tenantId <-
          ask P "Enter SharePoint Tenant ID (leave empty to skip SharePoint integration): " ;;
        clientId <- ask P "Enter SharePoint Client ID: " ;;
        clientSecret <- ask P "Enter SharePoint Client Secret: " ;;
        siteUrl <- ask P "Enter SharePoint Site URL: " ;;
        instrumentationKey <-
          ask P "Enter Application Insights Instrumentation Key (optional): " ;;
        let envContent :=
          build_envContent
            (config_entries connectionString containerName tenantId clientId
                            clientSecret siteUrl instrumentationKey)
            EmptyString in
        invoke (writeFile envPath envContent)
               (fun t => writeFile_reply P t envPath envContent) ;;
        perform (console_log (newline ++ "Configuration saved to .env file")) ;;
        invoke (require "./scripts/config")
               (fun t => require_reply P t "./scripts/config") ;;
        updateLocalSettings P ;;
        perform (console_log "Updated local.settings.json with environment variables") ;;
        perform (console_log (newline ++ "Setup complete! You can now run:")) ;;
        perform (console_log "1. npm install") ;;
        perform (console_log ("2. npm start" ++ newline)))
       (fun error =>
          perform (console_error "Error during setup:" (Some error)) ;;
          if code_is error "MODULE_NOT_FOUND"
          then perform (console_error
                          "Please run npm install first to install required dependencies"
                          None)
          else ret tt))
    (perform readline_close).

End Script.

(** ** Vocabulary of the statements and scripted platforms *)

(** The uuid values already drawn in a history. *)
Fixpoint drawn (h : History) : list string :=
  match h with
  | [] => []
  | {| call := uuidv4 v |} :: rest => v :: drawn rest
  | _ :: rest => drawn rest
  end.

(** The length of the longest of [names]. *)
Fixpoint longest (names : list string) : nat :=
  match names with
  | [] => 0
  | name :: rest => Nat.max (String.length name) (longest rest)
  end.

(** [n] copies of [c]. *)
Fixpoint repeat_char (c : ascii) (n : nat) : string :=
  match n with
  | 0 => EmptyString
  | S k => String c (repeat_char c k)
  end.

(** A generator that answers with a value longer than every value drawn so
    far. *)
Definition next_uuid (h : History) : string :=
  repeat_char "u"%char (S (longest (drawn h))).

(** A platform on which the blob upload and the disk write answer as
    given and every other call completes. *)
Definition scripted (blob_answer disk_answer : option JsError) : Platform :=
  {| mkdir_reply := fun _ _ => None;
     writeFile_reply := fun _ _ _ => disk_answer;
     fromConnectionString_reply := fun _ _ => None;
     createIfNotExists_reply := fun _ _ => None;
     upload_reply := fun _ _ _ _ _ => blob_answer;
     uuidv4_reply := next_uuid;
     graph_get_reply := fun _ _ => inr (CString "hello");
     credential_reply := fun _ _ _ _ => None;
     blob_url := fun _ container name =>
                   "https://account.blob.core.windows.net/" ++ container ++ "/" ++ name;
     path_join := String.concat "/";
     dirname := "/home/site/wwwroot/src/functions/fileUpload" |}.

(** An environment with [LocalUploadPath=uploads] and the given storage
    and SharePoint variables. *)
Definition env_with (storage_cs client_id client_secret tenant_id : JsString)
  : ProcessEnv :=
  {| AzureStorageConnectionString := storage_cs;
     LocalUploadPath := Some "uploads";
     SHAREPOINT_CLIENT_ID := client_id;
     SHAREPOINT_CLIENT_SECRET := client_secret;
     SHAREPOINT_TENANT_ID := tenant_id |}.

(** An upload handler with a connection string, and one without. *)
Definition configured_handler : FileUpload.FileUploadHandler :=
  {| FileUpload.connectionString := Some "UseDevelopmentStorage=true";
     FileUpload.localUploadPath := "uploads" |}.

Definition local_only_handler : FileUpload.FileUploadHandler :=
  {| FileUpload.connectionString := None;
     FileUpload.localUploadPath := "uploads" |}.

(** Every event a computation adds satisfies [allowed], whatever the
    outcome. *)
Definition emits {A} (allowed : Call -> bool) (m : Async A) : Prop :=
  forall h, exists added,
    snd (m h) = (added ++ h)%list
    /\ forallb (fun ev => allowed (call ev)) added = true.

(** The events logged by [uploadFile] on its two ways to the disk. *)
Definition blob_failure_warning (e : JsError) : Event :=
  {| call := console LogWarn
               "Blob storage upload failed, falling back to local storage:" (Some e);
     reply := Done |}.

Definition no_connection_string_info : Event :=
  {| call := console LogInfo
               "No Azure Storage connection string found, using local storage" None;
     reply := Done |}.

(** The answer of the disk to the write that [saveToLocal] issues when it
    is started in [h]. *)
Definition local_write_answer (P : Platform) (this : FileUpload.FileUploadHandler)
           (fileContent : Content) (name : string) (h : History) : option JsError :=
  let uuid := uuidv4_reply P h in
  writeFile_reply P ({| call := uuidv4 uuid; reply := Done |} :: h)
    (path_join P [FileUpload.localUploadPath this; uuid ++ "-" ++ name])
    fileContent.

(** [step] on [x] can push [entry]. *)
Definition pushes {X} (step : X -> list ResultObject -> Async (list ResultObject))
           (x : X) (entry : ResultObject) : Prop :=
  exists results h h',
    step x results h = (Returned (push results entry), h').

(** The event logged by the SharePoint handler when it enters mock mode. *)
Definition mock_mode_warning : Event :=
  {| call := console LogWarn
               "SharePoint credentials not configured, using mock data" None;
     reply := Done |}.

(** A reference with its four fields, and a request carrying references
    in an environment where everything is configured. *)
Definition complete_reference (name : string) : File.t :=
  {| File.siteId := Some "site"; File.driveId := Some "drive";
     File.itemId := Some ("item-" ++ name); File.fileName := Some name |}.

Definition sharepoint_env : ProcessEnv :=
  env_with (Some "UseDevelopmentStorage=true")
           (Some "client-id") (Some "client-secret") (Some "tenant-id").

Definition request_for (fs : list File.t) : SharePointUpload.Req.t :=
  {| SharePointUpload.Req.body := Some {| SharePointUpload.files := Some fs |} |}.

Definition reference_without_itemId : File.t :=
  {| File.siteId := Some "site"; File.driveId := Some "drive";
     File.itemId := None; File.fileName := Some "a.txt" |}.

(** The handler object of part_001 read as one of fileUpload/index.js:
    the two classes have the same two fields. *)
Definition as_index_js (this : Part001.FileUploadHandler) : FileUpload.FileUploadHandler :=
  {| FileUpload.connectionString := Part001.connectionString this;
     FileUpload.localUploadPath := Part001.localUploadPath this |}.

(** An upload handler of part_000 with a connection string. *)
Definition legacy_handler : Part000.FileUploadHandler :=
  {| Part000.connectionString := Some "UseDevelopmentStorage=true";
     Part000.localUploadPath := "uploads" |}.

(** The uuid generator never answers with a value it has already given. *)
Definition never_repeats (P : Platform) : Prop :=
  forall h, ~ In (uuidv4_reply P h) (drawn h).

(** The blob and the local result of the storage router for a drawn
    [uuid]. *)
Definition blob_result (P : Platform) (this : FileUpload.FileUploadHandler)
           (uuid name : string) : ResultObject :=
  {| fileName := None; success := Some true; storage := Some "blob";
     url := Some (blob_url P (FileUpload.connectionString this) "uploads"
                    (uuid ++ "-" ++ name));
     blobName := Some (uuid ++ "-" ++ name);
     localPath := None; error := None; mockData := None |}.

Definition local_result (P : Platform) (this : FileUpload.FileUploadHandler)
           (uuid name : string) : ResultObject :=
  {| fileName := Some (uuid ++ "-" ++ name); success := Some true;
     storage := Some "local"; url := None; blobName := None;
     localPath := Some (path_join P [FileUpload.localUploadPath this;
                                     uuid ++ "-" ++ name]);
     error := None; mockData := None |}.

(** What an entry of the direct-upload response can be for a given part. *)
Definition upload_entry_of (P : Platform) (this : FileUpload.FileUploadHandler)
           (file : FileUpload.UploadedFile) (entry : ResultObject) : Prop :=
  let name := js_or (FileUpload.originalname file) "unnamed-file" in
  (exists uuid,
      entry = named_result (FileUpload.originalname file)
                (blob_result P this uuid name)
      /\ fileName entry = FileUpload.originalname file)
  \/ (exists uuid,
         entry = named_result (FileUpload.originalname file)
                   (local_result P this uuid name)
         /\ fileName entry = Some (uuid ++ "-" ++ name))
  \/ (exists message, entry = failure name message).

Definition is_disk_write (c : Call) : bool :=
  match c with
  | fs_writeFile _ _ => true
  | _ => false
  end.

Definition is_blob_upload (c : Call) : bool :=
  match c with
  | blockBlobClient_upload _ _ _ _ => true
  | _ => false
  end.

(** A platform whose Graph read fails with [e]. *)
Definition graph_down (e : JsError) : Platform :=
  {| mkdir_reply := fun _ _ => None;
     writeFile_reply := fun _ _ _ => None;
     fromConnectionString_reply := fun _ _ => None;
     createIfNotExists_reply := fun _ _ => None;
     upload_reply := fun _ _ _ _ _ => None;
     uuidv4_reply := next_uuid;
     graph_get_reply := fun _ _ => inl e;
     credential_reply := fun _ _ _ _ => None;
     blob_url := fun _ container name =>
                   "https://account.blob.core.windows.net/" ++ container ++ "/" ++ name;
     path_join := String.concat "/";
     dirname := "/home/site/wwwroot/src/functions/sharePointUpload" |}.

Definition a_part (name : string) : FileUpload.UploadedFile :=
  {| FileUpload.buffer := CString "hello"; FileUpload.originalname := Some name |}.

(** An event that put the content somewhere: a completed blob upload or a
    completed disk write. *)
Definition stored (ev : Event) : bool :=
  match reply ev with
  | Done => is_blob_upload (call ev) || is_disk_write (call ev)
  | Failed _ => false
  end.

Definition outcome_count {A} (o : Outcome A) : nat :=
  match o with
  | Returned _ => 1
  | Thrown _ => 0
  end.

Definition resolver_with_client : SharePointUpload.SharePointHandler :=
  {| SharePointUpload.client :=
       Some {| SharePointUpload.tenantId := "tenant-id";
               SharePointUpload.clientId := "client-id";
               SharePointUpload.clientSecret := "client-secret" |} |}.

Definition part001_request (fs : list File.t) : Part001.Request :=
  {| Part001.json := inr (Some {| Part001.files := Some fs |}) |}.

Definition form_part (name : string) (size : nat) : FormFile.t :=
  {| FormFile.length := Some size; FormFile.buffer := CString "hello";
     FormFile.filename := name |}.

(** What an entry of a part_000 response can be for a stored or failed
    file called [name]. *)
Definition stored_under_url (P : Platform) (this : Part000.FileUploadHandler)
           (name : string) (entry : ResultObject) : Prop :=
  exists addr,
    entry = url_entry name addr
    /\ (addr = blob_url P (Part000.connectionString this) "uploads" name
        \/ addr = path_join P [Part000.localUploadPath this; name]).


(** The handler object that [new FileUploadHandler()] of part_000 yields. *)
Definition part000_handler (env : ProcessEnv) : Part000.FileUploadHandler :=
  {| Part000.connectionString := AzureStorageConnectionString env;
     Part000.localUploadPath := js_or (LocalUploadPath env) "uploads" |}.


Definition no_sharepoint_env : Part000Http.SharePointEnv :=
  {| Part000Http.SharePointTenantId := None;
     Part000Http.SharePointClientId := None;
     Part000Http.SharePointClientSecret := None |}.

Definition disk_write_attempts (added : History) : nat :=
  List.length (filter (fun ev => is_disk_write (call ev)) added).

(** The value a setting ends up with: a [%NAME%] placeholder whose name
    has a value in the parsed .env is replaced by it, anything else is
    kept. *)
Definition resolve (envConfig : string -> option Script.SettingValue)
           (value : Script.SettingValue) : Script.SettingValue :=
  match value with
  | Script.VString s =>
      if Script.startsWith_percent s && Script.endsWith_percent s then
        match envConfig (Script.slice_1_minus_1 s) with
        | Some replacement => replacement
        | None => value
        end
      else value
  | _ => value
  end.

Definition resolve_entry (envConfig : string -> option Script.SettingValue)
           (entry : string * Script.SettingValue) : string * Script.SettingValue :=
  (fst entry, resolve envConfig (snd entry)).

Definition is_string (value : Script.SettingValue) : bool :=
  match value with
  | Script.VString _ => true
  | _ => false
  end.


(** The files written, completely, among some events: path and data,
    newest first. *)
Fixpoint completed_writes (added : Script.Trace) : list (string * string) :=
  match added with
  | [] => []
  | {| Script.call := Script.writeFile path data; Script.failure := None |} :: rest =>
      (path, data) :: completed_writes rest
  | _ :: rest => completed_writes rest
  end.

Definition is_write_or_question (c : Script.Call) : bool :=
  match c with
  | Script.writeFile _ _ | Script.question _ _ => true
  | _ => false
  end.

Definition envPath_of (P : Script.Platform) : string :=
  Script.path_join P [Script.config_dirname P; ".."; ".env"].

Definition settingsPath_of (P : Script.Platform) : string :=
  Script.path_join P [Script.config_dirname P; ".."; "local.settings.json"].

(** A file system for concrete runs: .env defines
    [AZURE_STORAGE_CONNECTION_STRING] only, local.settings.json parses to
    [settings], every probe of a path answers with [probe_answer], every
    directory creation with [mkdir_answer], and reads, writes and copies
    complete. *)
Definition script_platform (settings : Script.Parsed)
           (probe_answer mkdir_answer : option Script.Error) : Script.Platform :=
  {| Script.readFile_reply := fun _ path => inr path;
     Script.writeFile_reply := fun _ _ _ => None;
     Script.access_reply := fun _ _ => probe_answer;
     Script.copyFile_reply := fun _ _ _ => None;
     Script.mkdir_reply := fun _ _ => mkdir_answer;
     Script.question_reply := fun _ _ => EmptyString;
     Script.require_reply := fun _ _ => None;
     Script.path_join := String.concat "/";
     Script.dotenv_parse :=
       fun _ key =>
         if String.eqb key "AZURE_STORAGE_CONNECTION_STRING"
         then Some (Script.VString "UseDevelopmentStorage=true")
         else None;
     Script.JSON_parse := fun _ => inr settings;
     Script.JSON_stringify := fun _ => "{}";
     Script.config_dirname := "/app/scripts";
     Script.setup_dirname := "/app" |}.

Definition sample_values : list (string * Script.SettingValue) :=
  [ ("FUNCTIONS_WORKER_RUNTIME", Script.VString "node");
    ("AzureStorageConnectionString",
     Script.VString "%AZURE_STORAGE_CONNECTION_STRING%");
    ("LocalUploadPath", Script.VString "%LOCAL_UPLOAD_PATH%") ].

Definition sample_settings : Script.Settings :=
  {| Script.Values := Some sample_values; Script.other_properties := [] |}.

Definition missing_file : Script.Error :=
  {| Script.code := Some "ENOENT";
     Script.message := "ENOENT: no such file or directory" |}.

(** A file system on which no file can be read. *)
Definition empty_disk : Script.Platform :=
  {| Script.readFile_reply := fun _ _ => inl missing_file;
     Script.writeFile_reply := fun _ _ _ => None;
     Script.access_reply := fun _ _ => Some missing_file;
     Script.copyFile_reply := fun _ _ _ => None;
     Script.mkdir_reply := fun _ _ => None;
     Script.question_reply := fun _ _ => EmptyString;
     Script.require_reply := fun _ _ => None;
     Script.path_join := String.concat "/";
     Script.dotenv_parse := fun _ _ => None;
     Script.JSON_parse := fun _ => inr Script.ParsedNull;
     Script.JSON_stringify := fun _ => "{}";
     Script.config_dirname := "/app/scripts";
     Script.setup_dirname := "/app" |}.

(** A computation that can end the process only through
    [process.exit(1)], which is then the newest event. *)
Definition exits_cleanly {A} (m : Script.Run A) : Prop :=
  forall t exitCode t',
    m t = (Script.Exited exitCode, t') ->
    exitCode = 1
    /\ exists rest,
        t' = {| Script.call := Script.process_exit 1; Script.failure := None |}
             :: rest.

(** The line that setup.js writes for one entry of [config]. *)
Definition env_line (entry : string * string) : string :=
  fst entry ++ "=" ++ snd entry ++ Script.newline.

Definition has_value (entry : string * string) : bool :=
  negb (String.eqb (snd entry) EmptyString).

(** The lines of a file, one after the other. *)
Fixpoint join_lines (lines : list string) : string :=
  match lines with
  | [] => EmptyString
  | line :: rest => line ++ join_lines rest
  end.




Definition permission_denied : Script.Error :=
  {| Script.code := Some "EACCES"; Script.message := "EACCES: permission denied" |}.

Definition not_initialized : JsError :=
  "SharePoint client not initialized - missing credentials".

(** ** Properties of histories *)

Lemma emits_ret {A} allowed (a : A) : emits allowed (ret a).
Proof. intros h. exists []. split; reflexivity. Qed.

Lemma emits_throw {A} allowed e : emits allowed (@throw A e).
Proof. intros h. exists []. split; reflexivity. Qed.

Lemma emits_invoke allowed c answer :
  allowed c = true -> emits allowed (invoke c answer).
Proof.
  intros Hc h. unfold invoke.
  destruct (answer h);
    (eexists [_]; split; [reflexivity | simpl; rewrite Hc; reflexivity]).
Qed.

Lemma emits_console allowed level text err :
  allowed (console level text err) = true ->
  emits allowed (console_log level text err).
Proof.
  intros Hc h. eexists [_]. split; [reflexivity | simpl; rewrite Hc; reflexivity].
Qed.

Lemma emits_uuidv4 allowed P :
  (forall v, allowed (uuidv4 v) = true) -> emits allowed (call_uuidv4 P).
Proof.
  intros Hc h. eexists [_]. split; [reflexivity | simpl; rewrite Hc; reflexivity].
Qed.

Lemma emits_graph_get allowed P apiPath :
  allowed (graph_api_get apiPath) = true -> emits allowed (call_graph_get P apiPath).
Proof.
  intros Hc h. unfold call_graph_get.
  destruct (graph_get_reply P h apiPath);
    (eexists [_]; split; [reflexivity | simpl; rewrite Hc; reflexivity]).
Qed.

Lemma emits_bind {A B} allowed (m : Async A) (k : A -> Async B) :
  emits allowed m -> (forall a, emits allowed (k a)) -> emits allowed (bind m k).
Proof.
  intros Hm Hk h. unfold bind.
  destruct (Hm h) as [ev1 [E1 F1]].
  destruct (m h) as [[a | e] h1]; simpl in E1; subst h1.
  - destruct (Hk a (ev1 ++ h)%list) as [ev2 [E2 F2]].
    exists (ev2 ++ ev1)%list. rewrite E2, app_assoc, forallb_app, F1, F2.
    split; reflexivity.
  - exists ev1. split; [reflexivity | exact F1].
Qed.

Lemma emits_try_catch {A} allowed (m : Async A) (handler : JsError -> Async A) :
  emits allowed m -> (forall e, emits allowed (handler e)) ->
  emits allowed (try_catch m handler).
Proof.
  intros Hm Hk h. unfold try_catch.
  destruct (Hm h) as [ev1 [E1 F1]].
  destruct (m h) as [[a | e] h1]; simpl in E1; subst h1.
  - exists ev1. split; [reflexivity | exact F1].
  - destruct (Hk e (ev1 ++ h)%list) as [ev2 [E2 F2]].
    exists (ev2 ++ ev1)%list. rewrite E2, app_assoc, forallb_app, F1, F2.
    split; reflexivity.
Qed.

Create HintDb emits discriminated.
#[local] Hint Resolve emits_ret emits_throw emits_invoke emits_console
  emits_uuidv4 emits_graph_get : emits.

Ltac emits_step :=
  lazymatch goal with
  | |- emits _ (bind _ _) => apply emits_bind; [| intro]
  | |- emits _ (try_catch _ _) => apply emits_try_catch; [| intro]
  | |- emits _ (if ?b then _ else _) => destruct b
  | |- emits _ (match ?x with _ => _ end) => destruct x
  | |- emits _ _ => solve [auto with emits]
  end.

Ltac emits_auto := repeat emits_step.

(** ** The storage router of fileUpload/index.js *)

Lemma ensureLocalUploadPath_returns P this h :
  fst (FileUpload.ensureLocalUploadPath P this h) = Returned tt.
Proof.
  unfold FileUpload.ensureLocalUploadPath, try_catch, invoke, console_log.
  destruct (mkdir_reply P h _); reflexivity.
Qed.

Lemma uploadFile_after_mkdir P this fileContent name h :
  FileUpload.uploadFile P this fileContent name h
  = (if truthy (FileUpload.connectionString this) then
       try_catch
         (FileUpload.uploadToBlob P this fileContent name "uploads")
         (fun error h2 =>
            FileUpload.saveToLocal P this fileContent name
              (blob_failure_warning error :: h2))
     else
       fun h1 =>
         FileUpload.saveToLocal P this fileContent name
           (no_connection_string_info :: h1))
      (snd (FileUpload.ensureLocalUploadPath P this h)).
Proof.
  unfold FileUpload.uploadFile at 1. unfold bind at 1.
  pose proof (ensureLocalUploadPath_returns P this h) as Hfst.
  destruct (FileUpload.ensureLocalUploadPath P this h) as [o h1].
  simpl in Hfst. subst o. simpl.
  destruct (truthy (FileUpload.connectionString this)); reflexivity.
Qed.

(** What [saveToLocal] does, by the answer of the disk. *)
Lemma saveToLocal_run P this fileContent name h :
  let uuid := uuidv4_reply P h in
  let unique := uuid ++ "-" ++ name in
  let filePath := path_join P [FileUpload.localUploadPath this; unique] in
  let h1 := {| call := uuidv4 uuid; reply := Done |} :: h in
  FileUpload.saveToLocal P this fileContent name h
  = match writeFile_reply P h1 filePath fileContent with
    | None =>
        (Returned {| fileName := Some unique; success := Some true;
                     storage := Some "local"; url := None; blobName := None;
                     localPath := Some filePath; error := None;
                     mockData := None |},
         {| call := fs_writeFile filePath fileContent; reply := Done |} :: h1)
    | Some e =>
        (Thrown e,
         {| call := fs_writeFile filePath fileContent; reply := Failed e |} :: h1)
    end.
Proof.
  cbv zeta. unfold FileUpload.saveToLocal, bind, call_uuidv4, invoke, ret.
  destruct (writeFile_reply P _ _ fileContent); reflexivity.
Qed.

(** A result of [uploadToBlob] is a blob result, and the history then
    starts with the completed upload. *)
Lemma uploadToBlob_returned P this fileContent name container h r h' :
  FileUpload.uploadToBlob P this fileContent name container h = (Returned r, h') ->
  exists blob len rest,
    h' = {| call := blockBlobClient_upload container blob fileContent len;
            reply := Done |} :: rest
    /\ upload_reply P rest container blob fileContent len = None
    /\ (exists added, rest = (added ++ h)%list)
    /\ r = {| fileName := None; success := Some true; storage := Some "blob";
              url := Some (blob_url P (FileUpload.connectionString this) container blob);
              blobName := Some blob; localPath := None; error := None;
              mockData := None |}.
Proof.
  unfold FileUpload.uploadToBlob, bind, invoke, call_uuidv4, ret.
  destruct (fromConnectionString_reply P h _); [discriminate |].
  destruct (createIfNotExists_reply P _ container); [discriminate |].
  destruct fileContent as [| bytes | s]; simpl; try discriminate.
  - destruct (upload_reply P _ container _ (CBuffer bytes) _) eqn:Eup;
      [discriminate |].
    intros H. injection H as <- <-.
    eexists _, _, _. split; [reflexivity |]. split; [exact Eup |].
    split; [eexists [_; _; _]; reflexivity | reflexivity].
  - destruct (upload_reply P _ container _ (CString s) _) eqn:Eup;
      [discriminate |].
    intros H. injection H as <- <-.
    eexists _, _, _. split; [reflexivity |]. split; [exact Eup |].
    split; [eexists [_; _; _]; reflexivity | reflexivity].
Qed.

Lemma ensureLocalUploadPath_extends P this h :
  exists added, snd (FileUpload.ensureLocalUploadPath P this h) = (added ++ h)%list.
Proof.
  unfold FileUpload.ensureLocalUploadPath, try_catch, invoke, console_log.
  destruct (mkdir_reply P h _); [eexists [_; _] | eexists [_]]; reflexivity.
Qed.

(** C1 (as amended). With a connection string configured and the blob
    attempt failing with [e], [uploadFile] logs the warning and continues
    as [saveToLocal]: the remote error [e] is dropped. When the disk accepts
    the write the result is a local one with [success] true; when it does
    not, the error raised is the one of the disk. *)
Theorem uploadFile_remote_failure_falls_back :
  forall P this fileContent name h e h1,
    truthy (FileUpload.connectionString this) = true ->
    FileUpload.uploadToBlob P this fileContent name "uploads"
      (snd (FileUpload.ensureLocalUploadPath P this h)) = (Thrown e, h1) ->
    FileUpload.uploadFile P this fileContent name h
    = FileUpload.saveToLocal P this fileContent name (blob_failure_warning e :: h1)
    /\ match local_write_answer P this fileContent name
               (blob_failure_warning e :: h1) with
       | None =>
           exists r h',
             FileUpload.uploadFile P this fileContent name h = (Returned r, h')
             /\ storage r = Some "local" /\ success r = Some true
       | Some disk_error =>
           exists h',
             FileUpload.uploadFile P this fileContent name h
             = (Thrown disk_error, h')
       end.
Proof.
  intros P this fileContent name h e h1 Hcs Hblob.
  assert (Heq : FileUpload.uploadFile P this fileContent name h
                = FileUpload.saveToLocal P this fileContent name
                    (blob_failure_warning e :: h1)).
  { rewrite uploadFile_after_mkdir, Hcs. unfold try_catch. rewrite Hblob.
    reflexivity. }
  split; [exact Heq |].
  rewrite Heq, saveToLocal_run. unfold local_write_answer.
  destruct (writeFile_reply P _ _ fileContent) as [disk_error |].
  - eexists. reflexivity.
  - eexists _, _. split; [reflexivity |]. split; reflexivity.
Qed.

(** A run on which the blob upload times out and the disk takes the file. *)
Lemma uploadFile_remote_failure_falls_back_witness :
  exists r h',
    FileUpload.uploadFile (scripted (Some "connect ETIMEDOUT") None)
      configured_handler (CString "hello") "a.txt" [] = (Returned r, h')
    /\ storage r = Some "local" /\ success r = Some true.
Proof.
  exact (proj2 (uploadFile_remote_failure_falls_back
                  (scripted (Some "connect ETIMEDOUT") None)
                  configured_handler (CString "hello") "a.txt" []
                  "connect ETIMEDOUT" _ eq_refl eq_refl)).
Defined.

(** C1 as stated fails when the disk write fails too: the connection string
    is configured, the blob attempt throws, and no local result comes
    back. *)
Lemma uploadFile_fallback_write_can_fail :
  let P := scripted (Some "connect ETIMEDOUT") (Some "ENOSPC: no space left on device") in
  truthy (FileUpload.connectionString configured_handler) = true
  /\ fst (FileUpload.uploadToBlob P configured_handler (CString "hello") "a.txt" "uploads"
            (snd (FileUpload.ensureLocalUploadPath P configured_handler [])))
     = Thrown "connect ETIMEDOUT"
  /\ ~ (exists r h',
          FileUpload.uploadFile P configured_handler (CString "hello") "a.txt" []
          = (Returned r, h')
          /\ storage r = Some "local" /\ success r = Some true).
Proof.
  cbv zeta. split; [reflexivity |]. split; [reflexivity |].
  intros [r [h' [Hrun _]]]. vm_compute in Hrun. discriminate Hrun.
Qed.

(** The two ways [uploadFile] can end: a result with [success] true, from
    the blob store or from the disk, or the error of the failed disk
    write, which is then the newest event. *)
Lemma uploadFile_cases P this fileContent name h :
  match FileUpload.uploadFile P this fileContent name h with
  | (Returned r, h') =>
      success r = Some true
      /\ (storage r = Some "blob" \/ storage r = Some "local")
  | (Thrown e, h') =>
      exists path rest,
        h' = {| call := fs_writeFile path fileContent; reply := Failed e |} :: rest
  end.
Proof.
  rewrite uploadFile_after_mkdir.
  set (h1 := snd (FileUpload.ensureLocalUploadPath P this h)). clearbody h1.
  destruct (truthy (FileUpload.connectionString this)).
  - unfold try_catch.
    destruct (FileUpload.uploadToBlob P this fileContent name "uploads" h1)
      as [[r | e] h2] eqn:Eblob.
    + apply uploadToBlob_returned in Eblob.
      destruct Eblob as (blob & len & rest & _ & _ & _ & ->).
      split; [reflexivity | left; reflexivity].
    + rewrite saveToLocal_run. cbv zeta.
      destruct (writeFile_reply P _ _ fileContent).
      * eexists _, _. reflexivity.
      * split; [reflexivity | right; reflexivity].
  - rewrite saveToLocal_run. cbv zeta.
    destruct (writeFile_reply P _ _ fileContent).
    + eexists _, _. reflexivity.
    + split; [reflexivity | right; reflexivity].
Qed.

(** C2 (as amended). [uploadFile] never returns a failure object: it
    returns a result with [success] true, or it throws the error of the
    terminal disk write. The [try]/[catch] around each file in the handler is
    what turns that exception into an entry with [success] false, and it
    always pushes exactly one entry. *)
Theorem uploadFile_throws_and_loop_catches :
  forall P fileHandler file results h,
    let name := js_or (FileUpload.originalname file) "unnamed-file" in
    match FileUpload.uploadFile P fileHandler (FileUpload.buffer file) name h with
    | (Returned r, h') =>
        success r = Some true
        /\ FileUpload.process_file P fileHandler file results h
           = (Returned (push results
                          (named_result (FileUpload.originalname file) r)), h')
    | (Thrown e, h') =>
        (exists path rest,
            h' = {| call := fs_writeFile path (FileUpload.buffer file);
                    reply := Failed e |} :: rest)
        /\ FileUpload.process_file P fileHandler file results h
           = (Returned (push results (failure name e)), h')
        /\ success (failure name e) = Some false
    end.
Proof.
  intros P fileHandler file results h name.
  pose proof (uploadFile_cases P fileHandler (FileUpload.buffer file) name h) as Hc.
  unfold FileUpload.process_file, try_catch, bind. fold name.
  destruct (FileUpload.uploadFile P fileHandler (FileUpload.buffer file) name h)
    as [[r | e] h'].
  - split; [apply Hc | reflexivity].
  - split; [exact Hc |]. split; reflexivity.
Qed.

(** C2 as stated fails: with no connection string and a disk that refuses
    the write, [uploadFile] ends in a raised exception, not in a result. *)
Lemma uploadFile_throws_on_disk_failure :
  fst (FileUpload.uploadFile (scripted None (Some "EACCES: permission denied"))
         local_only_handler (CString "hello") "a.txt" [])
  = Thrown "EACCES: permission denied".
Proof. reflexivity. Qed.

(** C4 (as amended). Without a connection string [uploadFile] adds no call
    to the blob store or to any other remote service, whatever happens
    afterwards. When the disk accepts the write the result is a local one;
    when it does not, the error of the disk is raised. *)
Theorem uploadFile_without_connection_string :
  forall P this fileContent name h,
    truthy (FileUpload.connectionString this) = false ->
    (exists added,
        snd (FileUpload.uploadFile P this fileContent name h) = (added ++ h)%list
        /\ forallb (fun ev => negb (is_remote_call (call ev))) added = true)
    /\ match local_write_answer P this fileContent name
               (no_connection_string_info
                :: snd (FileUpload.ensureLocalUploadPath P this h)) with
       | None =>
           exists r h',
             FileUpload.uploadFile P this fileContent name h = (Returned r, h')
             /\ storage r = Some "local"
       | Some disk_error =>
           exists h',
             FileUpload.uploadFile P this fileContent name h
             = (Thrown disk_error, h')
       end.
Proof.
  intros P this fileContent name h Hcs. split.
  - assert (He : emits (fun c => negb (is_remote_call c))
                       (FileUpload.uploadFile P this fileContent name)).
    { unfold FileUpload.uploadFile, FileUpload.ensureLocalUploadPath,
        FileUpload.saveToLocal.
      rewrite Hcs. emits_auto. }
    exact (He h).
  - rewrite uploadFile_after_mkdir, Hcs, saveToLocal_run.
    unfold local_write_answer.
    destruct (writeFile_reply P _ _ fileContent) as [disk_error |].
    + eexists. reflexivity.
    + eexists _, _. split; reflexivity.
Qed.

Lemma uploadFile_without_connection_string_witness :
  exists r h',
    FileUpload.uploadFile (scripted None None) local_only_handler
      (CString "hello") "a.txt" [] = (Returned r, h')
    /\ storage r = Some "local".
Proof.
  exact (proj2 (uploadFile_without_connection_string (scripted None None)
                  local_only_handler (CString "hello") "a.txt" [] eq_refl)).
Defined.

(** C4 as stated fails on its second half when the disk is full: nothing
    with [storage] local is returned. *)
Lemma uploadFile_local_only_can_fail :
  truthy (FileUpload.connectionString local_only_handler) = false
  /\ ~ (exists r h',
          FileUpload.uploadFile
            (scripted None (Some "ENOSPC: no space left on device"))
            local_only_handler (CString "hello") "a.txt" [] = (Returned r, h')
          /\ storage r = Some "local").
Proof.
  split; [reflexivity |].
  intros [r [h' [Hrun _]]]. vm_compute in Hrun. discriminate Hrun.
Qed.

(** C8. A result of [uploadFile] says [storage] blob only when a connection
    string is configured and the newest event is the blob upload of this
    content, completed, under the [blobName] the result reports. *)
Theorem blob_result_only_after_upload :
  forall P this fileContent name h r h',
    FileUpload.uploadFile P this fileContent name h = (Returned r, h') ->
    storage r = Some "blob" ->
    truthy (FileUpload.connectionString this) = true
    /\ exists blob len rest,
        h' = {| call := blockBlobClient_upload "uploads" blob fileContent len;
                reply := Done |} :: rest
        /\ upload_reply P rest "uploads" blob fileContent len = None
        /\ blobName r = Some blob.
Proof.
  intros P this fileContent name h r h' Hrun Hblob.
  rewrite uploadFile_after_mkdir in Hrun.
  set (h1 := snd (FileUpload.ensureLocalUploadPath P this h)) in Hrun.
  clearbody h1.
  destruct (truthy (FileUpload.connectionString this)).
  - split; [reflexivity |]. unfold try_catch in Hrun.
    destruct (FileUpload.uploadToBlob P this fileContent name "uploads" h1)
      as [[r0 | e] h2] eqn:Eblob.
    + injection Hrun as -> ->.
      apply uploadToBlob_returned in Eblob.
      destruct Eblob as (blob & len & rest & -> & Hup & _ & ->).
      exists blob, len, rest. repeat split; assumption || reflexivity.
    + rewrite saveToLocal_run in Hrun. cbv zeta in Hrun.
      destruct (writeFile_reply P _ _ fileContent); [discriminate |].
      injection Hrun as <- <-. discriminate Hblob.
  - rewrite saveToLocal_run in Hrun. cbv zeta in Hrun.
    destruct (writeFile_reply P _ _ fileContent); [discriminate |].
    injection Hrun as <- <-. discriminate Hblob.
Qed.

Lemma blob_result_only_after_upload_witness :
  truthy (FileUpload.connectionString configured_handler) = true
  /\ exists blob len rest,
      snd (FileUpload.uploadFile (scripted None None) configured_handler
             (CString "hello") "a.txt" [])
      = {| call := blockBlobClient_upload "uploads" blob (CString "hello") len;
           reply := Done |} :: rest
      /\ upload_reply (scripted None None) rest "uploads" blob (CString "hello") len
         = None
      /\ blob = "u-a.txt".
Proof.
  destruct (blob_result_only_after_upload (scripted None None) configured_handler
              (CString "hello") "a.txt" [] _ _ eq_refl eq_refl)
    as [Hcs (blob & len & rest & Hh & Hup & Hname)].
  split; [exact Hcs |].
  exists blob, len, rest. split; [exact Hh |]. split; [exact Hup |].
  simpl in Hname. injection Hname as <-. reflexivity.
Defined.

(** ** Batches *)

(** A loop whose step always returns after pushing one entry returns after
    pushing one entry per element, in the order of the elements. *)
Lemma for_of_pushes {X} (step : X -> list ResultObject -> Async (list ResultObject)) :
  (forall x results h, exists entry h',
      step x results h = (Returned (push results entry), h')) ->
  forall xs results h, exists entries h',
    for_of step xs results h = (Returned (results ++ entries)%list, h')
    /\ Forall2 (pushes step) xs entries.
Proof.
  intros Hstep xs. induction xs as [| x rest IH]; intros results h.
  - exists [], h. simpl. rewrite app_nil_r. split; [reflexivity | constructor].
  - destruct (Hstep x results h) as [entry [h1 E1]].
    destruct (IH (push results entry) h1) as [entries [h2 [E2 F2]]].
    exists (entry :: entries), h2. simpl. unfold bind. rewrite E1, E2.
    unfold push. rewrite <- app_assoc. split; [reflexivity |].
    constructor; [| exact F2]. exists results, h, h1. exact E1.
Qed.

Lemma FileUpload_process_file_pushes P fileHandler file results h :
  exists entry h',
    FileUpload.process_file P fileHandler file results h
    = (Returned (push results entry), h').
Proof.
  unfold FileUpload.process_file, try_catch, bind, ret.
  destruct (FileUpload.uploadFile P fileHandler _ _ h) as [[r | e] h'];
    eexists _, _; reflexivity.
Qed.

(** The direct-upload handler answers a batch of [N] parts with status 200
    and [N] entries, the i-th pushed by the loop body on the i-th part. *)
Lemma fileUpload_batch P env req fs h :
  FileUpload.files req = Some fs -> fs <> [] ->
  exists entries h',
    FileUpload.handler P env req h
    = (Returned (results_response "Files processed successfully" entries), h')
    /\ List.length entries = List.length fs
    /\ Forall2 (pushes (FileUpload.process_file P (FileUpload.new_FileUploadHandler P env)))
               fs entries.
Proof.
  intros Hfiles Hne.
  destruct (for_of_pushes _ (FileUpload_process_file_pushes P
              (FileUpload.new_FileUploadHandler P env)) fs [] h)
    as [entries [h' [Erun Hall]]].
  exists entries, h'.
  unfold FileUpload.handler, try_catch, bind. rewrite Hfiles.
  destruct fs as [| file rest]; [contradiction Hne; reflexivity |].
  unfold FileUpload.process_files. rewrite Erun. simpl.
  split; [reflexivity |].
  split; [symmetry; exact (Forall2_length Hall) | exact Hall].
Qed.

Lemma SharePointUpload_process_file_pushes P sharePointHandler fileHandler file results h :
  exists entry h',
    SharePointUpload.process_file P sharePointHandler fileHandler file results h
    = (Returned (push results entry), h').
Proof.
  unfold SharePointUpload.process_file, try_catch, bind, ret.
  destruct (missing_field file); [eexists _, _; reflexivity |].
  destruct (SharePointUpload.getFileFromSharePoint P sharePointHandler _ _ _ h)
    as [[content | e] h1]; [| eexists _, _; reflexivity].
  destruct (FileUpload.uploadFile P fileHandler content _ h1) as [[r | e] h2];
    eexists _, _; reflexivity.
Qed.

(** The loop body of the SharePoint handler on a reference with a missing
    field: the failure entry is pushed and no call at all is made. *)
Lemma SharePointUpload_process_file_missing_field
      P sharePointHandler fileHandler file results h :
  missing_field file = true ->
  SharePointUpload.process_file P sharePointHandler fileHandler file results h
  = (Returned (push results (missing_information file)), h).
Proof.
  intros Hm. unfold SharePointUpload.process_file, try_catch. rewrite Hm.
  reflexivity.
Qed.

(** ** The SharePoint endpoint of sharePointUpload/index.js *)

(** The import on line 4 yields [undefined]. *)
Lemma FileUploadHandler_is_undefined : SharePointUpload.FileUploadHandler = None.
Proof. reflexivity. Qed.

(** C5 (as amended). For a request whose [files] is missing or empty: when
    the SharePoint client id and secret are configured the answer is the 400
    response and the history is unchanged; when one of them is not, the
    mock-mode check comes first and the answer is the mock response with
    status 200, the only event being the logged warning. No storage or fetch
    call is made in either case. *)
Theorem sharePointUpload_without_files :
  forall P env req h,
    SharePointUpload.requested_files req = None
    \/ SharePointUpload.requested_files req = Some [] ->
    SharePointUpload.handler P env req h
    = if truthy (SHAREPOINT_CLIENT_ID env) && truthy (SHAREPOINT_CLIENT_SECRET env)
      then (Returned (error_response 400 "No files provided"
                        "Request must include an array of SharePoint files"), h)
      else (Returned (SharePointUpload.mock_response P env), mock_mode_warning :: h).
Proof.
  intros P env req h Hfiles.
  unfold SharePointUpload.handler, SharePointUpload.handler_with, try_catch.
  destruct (truthy (SHAREPOINT_CLIENT_ID env));
    destruct (truthy (SHAREPOINT_CLIENT_SECRET env)); simpl; try reflexivity.
  destruct Hfiles as [-> | ->]; reflexivity.
Qed.

Lemma sharePointUpload_without_files_witness :
  SharePointUpload.handler (scripted None None)
    (env_with None (Some "client-id") (Some "client-secret") (Some "tenant-id"))
    {| SharePointUpload.Req.body := Some {| SharePointUpload.files := Some [] |} |}
    []
  = (Returned (error_response 400 "No files provided"
                 "Request must include an array of SharePoint files"), []).
Proof.
  exact (sharePointUpload_without_files (scripted None None)
           (env_with None (Some "client-id") (Some "client-secret") (Some "tenant-id"))
           {| SharePointUpload.Req.body := Some {| SharePointUpload.files := Some [] |} |}
           [] (or_intror eq_refl)).
Defined.

(** C5 as stated fails when the credentials are not configured: an empty
    [files] list is answered with status 200, not 400. *)
Lemma sharePointUpload_empty_files_mock_200 :
  exists res,
    fst (SharePointUpload.handler (scripted None None)
           (env_with None None None None)
           {| SharePointUpload.Req.body := Some {| SharePointUpload.files := Some [] |} |}
           [])
    = Returned res
    /\ status res = 200.
Proof. eexists. split; reflexivity. Qed.

(** C6. With the client id and the secret configured and a non-empty
    [files] list, the handler answers 500: [FileUploadHandler] is
    [undefined], the construction throws, and what has happened by then is
    at most the construction of the credential, so no reference was fetched
    and nothing was stored. *)
Theorem sharePointUpload_answers_500 :
  forall P env req fs h,
    truthy (SHAREPOINT_CLIENT_ID env) = true ->
    truthy (SHAREPOINT_CLIENT_SECRET env) = true ->
    SharePointUpload.requested_files req = Some fs ->
    fs <> [] ->
    SharePointUpload.FileUploadHandler = None
    /\ exists message added,
        SharePointUpload.handler P env req h
        = (Returned (error_response 500 "SharePoint upload failed" message),
           (added ++ h)%list)
        /\ forallb (fun ev => negb (is_fetch_call (call ev))
                              && negb (is_storage_call (call ev))) added = true.
Proof.
  intros P env req fs h Hid Hsecret Hfiles Hne.
  split; [reflexivity |].
  unfold SharePointUpload.handler, SharePointUpload.handler_with, try_catch, bind.
  rewrite Hid, Hsecret, Hfiles. simpl.
  destruct fs as [| file rest]; [contradiction Hne; reflexivity |].
  unfold SharePointUpload.new_SharePointHandler.
  rewrite Hid, Hsecret. simpl.
  destruct (truthy (SHAREPOINT_TENANT_ID env)); simpl.
  - unfold bind, invoke.
    destruct (credential_reply P h _ _ _) as [e |]; simpl.
    + exists e. eexists [_; _]. split; reflexivity.
    + exists "FileUploadHandler is not a constructor". eexists [_; _].
      split; reflexivity.
  - exists "FileUploadHandler is not a constructor". eexists [_].
    split; reflexivity.
Qed.

Lemma sharePointUpload_answers_500_witness :
  exists message added,
    SharePointUpload.handler (scripted None None) sharepoint_env
      (request_for [complete_reference "a.txt"]) []
    = (Returned (error_response 500 "SharePoint upload failed" message),
       (added ++ [])%list)
    /\ forallb (fun ev => negb (is_fetch_call (call ev))
                          && negb (is_storage_call (call ev))) added = true.
Proof.
  refine (proj2 (sharePointUpload_answers_500 (scripted None None) sharepoint_env
                   (request_for [complete_reference "a.txt"])
                   [complete_reference "a.txt"] [] eq_refl eq_refl eq_refl _)).
  discriminate.
Defined.

(** C10. With the three SharePoint variables absent (or empty) the handler
    returns, whatever the request, the mock response: status 200,
    [mockMode] true. The only event is the logged warning, and a
    [SharePointHandler] built in that environment has no client, so
    [getFileFromSharePoint] throws at once without any call. *)
Theorem sharePointUpload_mock_mode :
  forall P env req h,
    truthy (SHAREPOINT_CLIENT_ID env) = false ->
    truthy (SHAREPOINT_CLIENT_SECRET env) = false ->
    truthy (SHAREPOINT_TENANT_ID env) = false ->
    SharePointUpload.handler P env req h
    = (Returned (SharePointUpload.mock_response P env), mock_mode_warning :: h)
    /\ status (SharePointUpload.mock_response P env) = 200
    /\ body_mockMode (body (SharePointUpload.mock_response P env)) = Some true
    /\ forall siteId driveId itemId h0,
        exists resolver,
          SharePointUpload.new_SharePointHandler P env h0 = (Returned resolver, h0)
          /\ SharePointUpload.getFileFromSharePoint P resolver siteId driveId itemId h0
             = (Thrown "SharePoint client not initialized - missing credentials", h0).
Proof.
  intros P env req h Hid Hsecret Htenant.
  split.
  - unfold SharePointUpload.handler, SharePointUpload.handler_with, try_catch.
    rewrite Hid. reflexivity.
  - split; [reflexivity |]. split; [reflexivity |].
    intros siteId driveId itemId h0.
    exists {| SharePointUpload.client := None |}.
    unfold SharePointUpload.new_SharePointHandler. rewrite Hid.
    split; reflexivity.
Qed.

Lemma sharePointUpload_mock_mode_witness :
  SharePointUpload.handler (scripted None None) (env_with None None None None)
    (request_for [complete_reference "a.txt"]) []
  = (Returned (SharePointUpload.mock_response (scripted None None)
                 (env_with None None None None)),
     [mock_mode_warning]).
Proof.
  exact (proj1 (sharePointUpload_mock_mode (scripted None None)
                  (env_with None None None None)
                  (request_for [complete_reference "a.txt"]) []
                  eq_refl eq_refl eq_refl)).
Defined.

(** C3 (the code at the failing input). A batch of three complete
    references, sent with the SharePoint credentials configured, is answered
    with status 500 and no [results] at all: the loop over the references is
    never entered. *)
Theorem sharePointUpload_batch_of_three_gets_no_results :
  exists h',
    SharePointUpload.handler (scripted None None) sharepoint_env
      (request_for [complete_reference "a.txt"; complete_reference "b.txt";
                    complete_reference "c.txt"]) []
    = (Returned (error_response 500 "SharePoint upload failed"
                   "FileUploadHandler is not a constructor"), h')
    /\ body_results
         (body (error_response 500 "SharePoint upload failed"
                  "FileUploadHandler is not a constructor")) = None.
Proof. eexists. split; reflexivity. Qed.

(** C9 (the code at the failing input). A batch holding one reference
    without [itemId], sent with the SharePoint credentials configured, is
    answered with status 500: the response carries no entry for that
    reference. *)
Theorem sharePointUpload_missing_itemId_gets_no_entry :
  missing_field reference_without_itemId = true
  /\ exists res h',
      SharePointUpload.handler (scripted None None) sharepoint_env
        (request_for [reference_without_itemId]) [] = (Returned res, h')
      /\ status res = 500
      /\ body_results (body res) = None.
Proof. split; [reflexivity |]. eexists _, _. repeat split. Qed.

(** Had the class been exported, the same handler would answer a batch of
    [N] references with [N] entries in order. *)
Lemma sharePointUpload_batch_with_exported_class P env req fs h :
  truthy (SHAREPOINT_CLIENT_ID env) = true ->
  truthy (SHAREPOINT_CLIENT_SECRET env) = true ->
  SharePointUpload.requested_files req = Some fs ->
  fs <> [] ->
  (forall h0 tenant client secret, credential_reply P h0 tenant client secret = None) ->
  exists resolver entries h',
    SharePointUpload.handler_with
      (Some (FileUpload.ExportedClass FileUpload.new_FileUploadHandler)) P env req h
    = (Returned (results_response "SharePoint files processed" entries), h')
    /\ List.length entries = List.length fs
    /\ Forall2 (pushes (SharePointUpload.process_file P resolver
                          (FileUpload.new_FileUploadHandler P env)))
               fs entries.
Proof.
  intros Hid Hsecret Hfiles Hne Hcred.
  unfold SharePointUpload.handler_with, try_catch, bind.
  rewrite Hid, Hsecret, Hfiles. simpl.
  destruct fs as [| file rest]; [contradiction Hne; reflexivity |].
  assert (Hnew : exists resolver h1,
             SharePointUpload.new_SharePointHandler P env h = (Returned resolver, h1)).
  { unfold SharePointUpload.new_SharePointHandler, bind, invoke.
    destruct (_ || _); [eexists _, _; reflexivity |].
    rewrite Hcred. eexists _, _. reflexivity. }
  destruct Hnew as [resolver [h1 Hnew]]. rewrite Hnew. simpl.
  destruct (for_of_pushes _ (SharePointUpload_process_file_pushes P resolver
              (FileUpload.new_FileUploadHandler P env)) (file :: rest) [] h1)
    as [entries [h' [Erun Hall]]].
  exists resolver, entries, h'.
  unfold SharePointUpload.process_files. rewrite Erun. simpl.
  split; [reflexivity |].
  split; [symmetry; exact (Forall2_length Hall) | exact Hall].
Qed.

(** ** The variant of unnamed/part_001 *)

(** The private methods are the methods of fileUpload/index.js. *)
Lemma Part001_uploadToBlob_eq P this fileContent name container :
  Part001.uploadToBlob P this fileContent name container
  = FileUpload.uploadToBlob P (as_index_js this) fileContent name container.
Proof. reflexivity. Qed.

Lemma Part001_saveToLocal_eq P this fileContent name :
  Part001.saveToLocal P this fileContent name
  = FileUpload.saveToLocal P (as_index_js this) fileContent name.
Proof. reflexivity. Qed.

(** [uploadFile] of fileUpload/index.js is the directory creation followed
    by [uploadFile] of this variant. *)
Lemma uploadFile_is_mkdir_then_Part001 P this fileContent name h :
  FileUpload.uploadFile P (as_index_js this) fileContent name h
  = Part001.uploadFile P this fileContent name
      (snd (FileUpload.ensureLocalUploadPath P (as_index_js this) h)).
Proof.
  rewrite uploadFile_after_mkdir. unfold Part001.uploadFile. simpl.
  destruct (truthy (Part001.connectionString this)); reflexivity.
Qed.

(** The fallback of C1 in this variant. *)
Lemma Part001_uploadFile_remote_failure_falls_back P this fileContent name h e h1 :
  truthy (Part001.connectionString this) = true ->
  Part001.uploadToBlob P this fileContent name "uploads" h = (Thrown e, h1) ->
  Part001.uploadFile P this fileContent name h
  = Part001.saveToLocal P this fileContent name (blob_failure_warning e :: h1)
  /\ ((forall hw path, writeFile_reply P hw path fileContent = None) ->
      exists r h',
        Part001.uploadFile P this fileContent name h = (Returned r, h')
        /\ storage r = Some "local" /\ success r = Some true).
Proof.
  intros Hcs Hblob.
  assert (Heq : Part001.uploadFile P this fileContent name h
                = Part001.saveToLocal P this fileContent name
                    (blob_failure_warning e :: h1)).
  { unfold Part001.uploadFile, try_catch. rewrite Hcs, Hblob. reflexivity. }
  split; [exact Heq |].
  intros Hdisk. rewrite Heq, Part001_saveToLocal_eq, saveToLocal_run.
  cbv zeta. rewrite Hdisk. eexists _, _. repeat split.
Qed.

(** The blob invariant of C8 in this variant. *)
Lemma Part001_blob_result_only_after_upload P this fileContent name h r h' :
  Part001.uploadFile P this fileContent name h = (Returned r, h') ->
  storage r = Some "blob" ->
  truthy (Part001.connectionString this) = true
  /\ exists blob len rest,
      h' = {| call := blockBlobClient_upload "uploads" blob fileContent len;
              reply := Done |} :: rest
      /\ upload_reply P rest "uploads" blob fileContent len = None
      /\ blobName r = Some blob.
Proof.
  intros Hrun Hblob. unfold Part001.uploadFile in Hrun.
  destruct (truthy (Part001.connectionString this)).
  - split; [reflexivity |]. unfold try_catch in Hrun.
    rewrite Part001_uploadToBlob_eq in Hrun.
    destruct (FileUpload.uploadToBlob P (as_index_js this) fileContent name
                "uploads" h) as [[r0 | e] h2] eqn:Eblob.
    + injection Hrun as -> ->.
      apply uploadToBlob_returned in Eblob.
      destruct Eblob as (blob & len & rest & -> & Hup & _ & ->).
      exists blob, len, rest. repeat split; assumption || reflexivity.
    + unfold bind, console_log in Hrun.
      rewrite Part001_saveToLocal_eq, saveToLocal_run in Hrun. cbv zeta in Hrun.
      destruct (writeFile_reply P _ _ fileContent); [discriminate |].
      injection Hrun as <- <-. discriminate Hblob.
  - unfold bind, console_log in Hrun.
    rewrite Part001_saveToLocal_eq, saveToLocal_run in Hrun. cbv zeta in Hrun.
    destruct (writeFile_reply P _ _ fileContent); [discriminate |].
    injection Hrun as <- <-. discriminate Hblob.
Qed.


Lemma push_inj results (a b : ResultObject) :
  push results a = push results b -> a = b.
Proof. unfold push. intros H. apply app_inj_tail in H. apply H. Qed.



(** A request without [files], or with an empty list, is answered with
    status 400 before anything is constructed. *)
Lemma Part001_sharePointUpload_without_files P env request h :
  Part001.json request = inr (Some {| Part001.files := None |})
  \/ Part001.json request = inr (Some {| Part001.files := Some [] |}) ->
  exists res,
    Part001.sharePointUpload P env request h = (Returned res, h)
    /\ status res = 400.
Proof.
  intros [Hjson | Hjson];
    unfold Part001.sharePointUpload, try_catch, bind, Part001.request_json;
    rewrite Hjson; eexists; split; reflexivity.
Qed.

(** ** Generated names *)

(** C7 (the code at the failing input). In the variant of part_000 the
    same content stored twice under the name [a.txt] lands twice on the same
    blob, and, when the blob store is down, twice on the same local
    path: the stored name carries no unique part. *)
Theorem Part000_same_name_stored_twice :
  (let P := scripted None None in
   let first := Part000.uploadToBlob P legacy_handler (CString "hello") "a.txt"
                  "uploads" [] in
   let second := Part000.uploadToBlob P legacy_handler (CString "hello") "a.txt"
                   "uploads" (snd first) in
   fst first = Returned "https://account.blob.core.windows.net/uploads/a.txt"
   /\ fst second = fst first)
  /\ (let P := scripted (Some "connect ETIMEDOUT") None in
      let first := Part000.uploadToBlob P legacy_handler (CString "hello") "a.txt"
                     "uploads" [] in
      let second := Part000.uploadToBlob P legacy_handler (CString "hello") "a.txt"
                      "uploads" (snd first) in
      fst first = Returned "uploads/a.txt"
      /\ fst second = fst first).
Proof. repeat split. Qed.

(** On every platform the local path of part_000 is a function of the
    file name alone. *)
Lemma Part000_saveToLocal_path P this fileContent name h filePath h' :
  Part000.saveToLocal P this fileContent name h = (Returned filePath, h') ->
  filePath = path_join P [Part000.localUploadPath this; name].
Proof.
  unfold Part000.saveToLocal, try_catch, bind, invoke, console_log, ret, throw.
  destruct (writeFile_reply P h _ fileContent); [discriminate |].
  intros H. injection H as <- _. reflexivity.
Qed.

Lemma drawn_app (a h : History) : drawn (a ++ h)%list = (drawn a ++ drawn h)%list.
Proof.
  induction a as [| [c r] a IH]; [reflexivity |].
  destruct c; simpl; rewrite IH; reflexivity.
Qed.

Lemma length_append s t :
  String.length (s ++ t) = String.length s + String.length t.
Proof. induction s as [| c s IH]; simpl; [reflexivity | rewrite IH; reflexivity]. Qed.

Lemma append_inv_tail s1 : forall s2 t, s1 ++ t = s2 ++ t -> s1 = s2.
Proof.
  induction s1 as [| a s1 IH]; intros [| b s2] t H; simpl in H.
  - reflexivity.
  - apply (f_equal String.length) in H. simpl in H. rewrite length_append in H. lia.
  - apply (f_equal String.length) in H. simpl in H. rewrite length_append in H. lia.
  - injection H as -> H. f_equal. exact (IH _ _ H).
Qed.

Lemma length_repeat_char c n : String.length (repeat_char c n) = n.
Proof. induction n as [| n IH]; simpl; [reflexivity | rewrite IH; reflexivity]. Qed.

Lemma longest_bound names v : In v names -> String.length v <= longest names.
Proof.
  induction names as [| name rest IH]; simpl; [contradiction |].
  intros [-> | Hin]; [lia | specialize (IH Hin); lia].
Qed.

(** The scripted platforms have such a generator. *)
Lemma scripted_never_repeats blob_answer disk_answer :
  never_repeats (scripted blob_answer disk_answer).
Proof.
  intros h Hin. simpl in Hin. apply longest_bound in Hin.
  unfold next_uuid in Hin. rewrite length_repeat_char in Hin. lia.
Qed.

(** Where the generated name of a result of [uploadFile] comes from: a
    uuid drawn during this call, followed by a dash and the file name. *)
Lemma uploadFile_generatedName P this fileContent name h r h' :
  FileUpload.uploadFile P this fileContent name h = (Returned r, h') ->
  exists before,
    generatedName r = Some (uuidv4_reply P before ++ "-" ++ name)
    /\ (exists a, before = (a ++ h)%list)
    /\ exists b, h' = (b ++ {| call := uuidv4 (uuidv4_reply P before);
                               reply := Done |} :: before)%list.
Proof.
  rewrite uploadFile_after_mkdir.
  destruct (ensureLocalUploadPath_extends P this h) as [a1 E1].
  rewrite E1. clear E1.
  assert (Hlocal : forall a2,
             FileUpload.saveToLocal P this fileContent name (a2 ++ h)%list
             = (Returned r, h') ->
             exists before,
               generatedName r = Some (uuidv4_reply P before ++ "-" ++ name)
               /\ (exists a, before = (a ++ h)%list)
               /\ exists b, h' = (b ++ {| call := uuidv4 (uuidv4_reply P before);
                                          reply := Done |} :: before)%list).
  { intros a2 Hrun. rewrite saveToLocal_run in Hrun. cbv zeta in Hrun.
    destruct (writeFile_reply P _ _ fileContent); [discriminate |].
    injection Hrun as <- <-.
    exists (a2 ++ h)%list. split; [reflexivity |].
    split; [exists a2; reflexivity | eexists [_]; reflexivity]. }
  destruct (truthy (FileUpload.connectionString this)).
  - unfold try_catch.
    destruct (FileUpload.uploadToBlob P this fileContent name "uploads" (a1 ++ h)%list)
      as [[r0 | e] h2] eqn:Eblob.
    + intros H. injection H as -> ->. revert Eblob.
      unfold FileUpload.uploadToBlob, bind, invoke, call_uuidv4, ret.
      destruct (fromConnectionString_reply P _ _); [discriminate |].
      destruct (createIfNotExists_reply P _ "uploads"); [discriminate |].
      match goal with
      | |- context [uuidv4_reply P ?hx] => exists hx
      end.
      destruct fileContent as [| bytes | s]; simpl in Eblob |- *;
        try discriminate;
        (destruct (upload_reply P _ "uploads" _ _ _); [discriminate |]);
        injection Eblob as <- <-;
        (split; [reflexivity |]);
        (split; [eexists (_ :: _ :: a1); reflexivity | eexists [_]; reflexivity]).
    + assert (He : emits (fun _ => true)
                     (FileUpload.uploadToBlob P this fileContent name "uploads")).
      { unfold FileUpload.uploadToBlob, Buffer_byteLength. emits_auto. }
      destruct (He (a1 ++ h)%list) as [a2 [E2 _]].
      rewrite Eblob in E2. simpl in E2. subst h2.
      intros Hrun.
      apply (Hlocal (blob_failure_warning e :: a2 ++ a1)%list).
      simpl. rewrite <- app_assoc. exact Hrun.
  - intros Hrun. eapply (Hlocal (_ :: a1)). exact Hrun.
Qed.

(** With a generator that never repeats, two calls of [uploadFile] with the
    same content and file name, the second at any later point, yield two
    different generated names. *)
Lemma uploadFile_twice_distinct_names P this fileContent name h r1 h1 later r2 h2 :
  never_repeats P ->
  FileUpload.uploadFile P this fileContent name h = (Returned r1, h1) ->
  FileUpload.uploadFile P this fileContent name (later ++ h1)%list = (Returned r2, h2) ->
  generatedName r1 <> generatedName r2.
Proof.
  intros Hfresh Hfirst Hsecond.
  apply uploadFile_generatedName in Hfirst.
  destruct Hfirst as (before1 & Hname1 & _ & b1 & ->).
  apply uploadFile_generatedName in Hsecond.
  destruct Hsecond as (before2 & Hname2 & [a2 ->] & _).
  rewrite Hname1, Hname2. intros Heq. injection Heq as Heq.
  apply append_inv_tail in Heq.
  apply (Hfresh (a2 ++ later ++ b1
                 ++ {| call := uuidv4 (uuidv4_reply P before1); reply := Done |}
                 :: before1)%list).
  rewrite <- Heq, !drawn_app. apply in_or_app. right. apply in_or_app. right.
  apply in_or_app. right. simpl. left. reflexivity.
Qed.

Lemma uploadFile_twice_distinct_names_run :
  let P := scripted None None in
  let first := FileUpload.uploadFile P configured_handler (CString "hello") "a.txt" [] in
  let second := FileUpload.uploadFile P configured_handler (CString "hello") "a.txt"
                  (snd first) in
  exists r1 r2,
    fst first = Returned r1 /\ fst second = Returned r2
    /\ generatedName r1 = Some "u-a.txt" /\ generatedName r2 = Some "uu-a.txt".
Proof. cbv zeta. eexists _, _. repeat split. Qed.


(** ** Further properties of fileUpload/index.js *)

Lemma emits_for_of {X} allowed
      (step : X -> list ResultObject -> Async (list ResultObject)) :
  (forall x results, emits allowed (step x results)) ->
  forall xs results, emits allowed (for_of step xs results).
Proof.
  intros Hstep xs. induction xs as [| x rest IH]; intros results; simpl.
  - apply emits_ret.
  - apply emits_bind; [apply Hstep | intro; apply IH].
Qed.

(** X1. A direct-upload request without [files], or with an empty array, is
    answered with status 400 and causes no call at all: not even the upload
    directory is created. *)
Theorem fileUpload_without_files :
  forall P env req h,
    FileUpload.files req = None \/ FileUpload.files req = Some [] ->
    FileUpload.handler P env req h
    = (Returned (error_response 400 "No files were uploaded"
                   "Request must include at least one file"), h).
Proof.
  intros P env req h [Hfiles | Hfiles];
    unfold FileUpload.handler, try_catch; rewrite Hfiles; reflexivity.
Qed.

Lemma fileUpload_without_files_witness :
  FileUpload.handler (scripted None None) sharepoint_env
    {| FileUpload.files := Some [] |} []
  = (Returned (error_response 400 "No files were uploaded"
                 "Request must include at least one file"), []).
Proof.
  exact (fileUpload_without_files (scripted None None) sharepoint_env
           {| FileUpload.files := Some [] |} [] (or_intror eq_refl)).
Defined.

(** A result of [uploadFile] is the blob result or the local result for
    some uuid. *)
Lemma uploadFile_result_shape P this fileContent name h r h' :
  FileUpload.uploadFile P this fileContent name h = (Returned r, h') ->
  exists uuid, r = blob_result P this uuid name \/ r = local_result P this uuid name.
Proof.
  rewrite uploadFile_after_mkdir.
  set (h1 := snd (FileUpload.ensureLocalUploadPath P this h)). clearbody h1.
  assert (Hlocal : forall h2,
             FileUpload.saveToLocal P this fileContent name h2 = (Returned r, h') ->
             exists uuid, r = blob_result P this uuid name
                          \/ r = local_result P this uuid name).
  { intros h2 Hrun. rewrite saveToLocal_run in Hrun. cbv zeta in Hrun.
    destruct (writeFile_reply P _ _ fileContent); [discriminate |].
    injection Hrun as <- _. eexists. right. reflexivity. }
  destruct (truthy (FileUpload.connectionString this)).
  - unfold try_catch.
    destruct (FileUpload.uploadToBlob P this fileContent name "uploads" h1)
      as [[r0 | e] h2] eqn:Eblob.
    + intros H. injection H as -> ->. revert Eblob.
      unfold FileUpload.uploadToBlob, bind, invoke, call_uuidv4, ret.
      destruct (fromConnectionString_reply P _ _); [discriminate |].
      destruct (createIfNotExists_reply P _ "uploads"); [discriminate |].
      destruct fileContent as [| bytes | s]; simpl; try discriminate;
        (destruct (upload_reply P _ "uploads" _ _ _); [discriminate |]);
        intros H; injection H as <- _; eexists; left; reflexivity.
    + apply Hlocal.
  - apply Hlocal.
Qed.

Lemma process_file_entry P this file entry :
  pushes (FileUpload.process_file P this) file entry ->
  upload_entry_of P this file entry.
Proof.
  intros (results & h & h' & Hrun).
  unfold FileUpload.process_file, try_catch, bind, ret in Hrun.
  destruct (FileUpload.uploadFile P this (FileUpload.buffer file)
              (js_or (FileUpload.originalname file) "unnamed-file") h)
    as [[r | e] h1] eqn:Eup.
  - injection Hrun as Hpush _. apply push_inj in Hpush. subst entry.
    apply uploadFile_result_shape in Eup. destruct Eup as [uuid [-> | ->]].
    + left. exists uuid. split; [reflexivity |].
      unfold named_result, spread, blob_result. simpl.
      destruct (FileUpload.originalname file); reflexivity.
    + right. left. exists uuid. split; reflexivity.
  - injection Hrun as Hpush _. apply push_inj in Hpush. subst entry.
    right. right. exists e. reflexivity.
Qed.

(** X2. A direct-upload request with [N] parts is answered with status 200
    and [N] entries in the order of the parts. The entry of a part stored
    as a blob keeps the original name in [fileName]; the entry of a part
    stored on disk carries the generated unique name there instead, the
    spread result overriding it; the entry of a failed part has [success]
    false and the original name, or [unnamed-file]. *)
Theorem fileUpload_batch_entries :
  forall P env req fs h,
    FileUpload.files req = Some fs -> fs <> [] ->
    exists entries h',
      FileUpload.handler P env req h
      = (Returned (results_response "Files processed successfully" entries), h')
      /\ Forall2 (upload_entry_of P (FileUpload.new_FileUploadHandler P env))
                 fs entries.
Proof.
  intros P env req fs h Hfiles Hne.
  destruct (fileUpload_batch P env req fs h Hfiles Hne)
    as (entries & h' & Hrun & _ & Hall).
  exists entries, h'. split; [exact Hrun |].
  refine (Forall2_impl _ _ Hall). intros file entry. apply process_file_entry.
Qed.

Lemma fileUpload_batch_entries_witness :
  exists entries h',
    FileUpload.handler (scripted None (Some "ENOSPC")) (env_with None None None None)
      {| FileUpload.files := Some [a_part "a.txt"; a_part "b.txt"] |} []
    = (Returned (results_response "Files processed successfully" entries), h')
    /\ Forall2 (upload_entry_of (scripted None (Some "ENOSPC"))
                  (FileUpload.new_FileUploadHandler (scripted None (Some "ENOSPC"))
                     (env_with None None None None)))
               [a_part "a.txt"; a_part "b.txt"] entries.
Proof.
  refine (fileUpload_batch_entries (scripted None (Some "ENOSPC"))
            (env_with None None None None)
            {| FileUpload.files := Some [a_part "a.txt"; a_part "b.txt"] |}
            [a_part "a.txt"; a_part "b.txt"] [] eq_refl _).
  discriminate.
Defined.

Ltac destruct_replies :=
  repeat match goal with
         | |- context [mkdir_reply ?P ?h ?p] =>
             destruct (mkdir_reply P h p); simpl
         | |- context [fromConnectionString_reply ?P ?h ?c] =>
             destruct (fromConnectionString_reply P h c); simpl
         | |- context [createIfNotExists_reply ?P ?h ?c] =>
             destruct (createIfNotExists_reply P h c); simpl
         | |- context [match ?c with CUndefined => _ | CBuffer _ => _ | CString _ => _ end] =>
             is_var c; destruct c; simpl
         | |- context [upload_reply ?P ?h ?a ?b ?c ?d] =>
             destruct (upload_reply P h a b c d); simpl
         | |- context [writeFile_reply ?P ?h ?a ?b] =>
             destruct (writeFile_reply P h a b); simpl
         | |- context [graph_get_reply ?P ?h ?a] =>
             destruct (graph_get_reply P h a); simpl
         | |- context [credential_reply ?P ?h ?a ?b ?c] =>
             destruct (credential_reply P h a b c); simpl
         end.

Ltac give_added tac :=
  first [ exists (@nil Event); split; [reflexivity | tac]
        | eexists [_]; split; [reflexivity | tac]
        | eexists [_; _]; split; [reflexivity | tac]
        | eexists [_; _; _]; split; [reflexivity | tac]
        | eexists [_; _; _; _]; split; [reflexivity | tac]
        | eexists [_; _; _; _; _]; split; [reflexivity | tac]
        | eexists [_; _; _; _; _; _]; split; [reflexivity | tac]
        | eexists [_; _; _; _; _; _; _]; split; [reflexivity | tac]
        | eexists [_; _; _; _; _; _; _; _]; split; [reflexivity | tac]
        | eexists [_; _; _; _; _; _; _; _; _]; split; [reflexivity | tac] ].

(** X3. [uploadFile] stores the content exactly once when it returns and
    not at all when it throws: among the events of one call there is one
    completed blob upload or disk write in the first case, none in the
    second. In particular a file is never left both in the blob store and
    on disk. *)
Theorem uploadFile_stores_exactly_once :
  forall P this fileContent name h,
    exists added,
      snd (FileUpload.uploadFile P this fileContent name h) = (added ++ h)%list
      /\ List.length (filter stored added)
         = outcome_count (fst (FileUpload.uploadFile P this fileContent name h)).
Proof.
  intros P this fileContent name h.
  unfold FileUpload.uploadFile, FileUpload.ensureLocalUploadPath,
    FileUpload.uploadToBlob, FileUpload.saveToLocal, Buffer_byteLength,
    bind, try_catch, invoke, call_uuidv4, console_log, ret, throw.
  destruct (mkdir_reply P h _);
    destruct (truthy (FileUpload.connectionString this)); simpl;
    destruct_replies; give_added reflexivity.
Qed.

(** X4. For a part without data ([fileContent] undefined) and a connection
    string configured, the blob upload is never issued:
    [Buffer.byteLength] throws first, the router falls back, and whatever
    is returned is a local result. *)
Theorem uploadFile_without_content :
  forall P this name h,
    truthy (FileUpload.connectionString this) = true ->
    (exists added,
        snd (FileUpload.uploadFile P this CUndefined name h) = (added ++ h)%list
        /\ forallb (fun ev => negb (is_blob_upload (call ev))) added = true)
    /\ forall r h',
        FileUpload.uploadFile P this CUndefined name h = (Returned r, h') ->
        storage r = Some "local".
Proof.
  intros P this name h Hcs.
  unfold FileUpload.uploadFile, FileUpload.ensureLocalUploadPath,
    FileUpload.uploadToBlob, FileUpload.saveToLocal, Buffer_byteLength,
    bind, try_catch, invoke, call_uuidv4, console_log, ret, throw.
  rewrite Hcs. split.
  - destruct (mkdir_reply P h _); simpl; destruct_replies; give_added reflexivity.
  - intros r h'.
    destruct (mkdir_reply P h _); simpl; destruct_replies;
      intros H; try discriminate H; injection H as <- _; reflexivity.
Qed.

Lemma uploadFile_without_content_witness :
  exists added,
    snd (FileUpload.uploadFile (scripted None None) configured_handler CUndefined
           "a.txt" []) = (added ++ [])%list
    /\ forallb (fun ev => negb (is_blob_upload (call ev))) added = true.
Proof.
  exact (proj1 (uploadFile_without_content (scripted None None) configured_handler
                  "a.txt" [] eq_refl)).
Defined.

(** X5. With a uuid generator that never repeats a value, two calls of
    [uploadFile] for the same content and file name, the second at any later
    point of the history, give two different generated names. *)
Theorem uploadFile_names_never_collide :
  forall P this fileContent name h r1 h1 later r2 h2,
    never_repeats P ->
    FileUpload.uploadFile P this fileContent name h = (Returned r1, h1) ->
    FileUpload.uploadFile P this fileContent name (later ++ h1)%list
    = (Returned r2, h2) ->
    generatedName r1 <> generatedName r2.
Proof.
  intros P this fileContent name h r1 h1 later r2 h2.
  apply uploadFile_twice_distinct_names.
Qed.

Lemma uploadFile_names_never_collide_witness :
  Some "u-a.txt" <> Some "uu-a.txt".
Proof.
  exact (uploadFile_names_never_collide (scripted None None) configured_handler
           (CString "hello") "a.txt" [] _ _ [] _ _
           (scripted_never_repeats None None) eq_refl eq_refl).
Defined.

(** X6. In the loop body of the SharePoint handler, a reference with all
    four fields whose Graph read fails gets a failure entry whose message is
    the Graph error behind a fixed prefix, and the storage router is not
    called: the only event of the step is the failed read. *)
Theorem SharePointUpload_process_file_fetch_failure :
  forall P resolver graph fileHandler file results h e,
    missing_field file = false ->
    SharePointUpload.client resolver = Some graph ->
    graph_get_reply P h
      ("/sites/" ++ interpolate (File.siteId file) ++ "/drives/"
       ++ interpolate (File.driveId file) ++ "/items/"
       ++ interpolate (File.itemId file) ++ "/content") = inl e ->
    SharePointUpload.process_file P resolver fileHandler file results h
    = (Returned (push results
                   (failed_entry file ("Failed to fetch file from SharePoint: " ++ e))),
       {| call := graph_api_get
                    ("/sites/" ++ interpolate (File.siteId file) ++ "/drives/"
                     ++ interpolate (File.driveId file) ++ "/items/"
                     ++ interpolate (File.itemId file) ++ "/content");
          reply := Failed e |} :: h).
Proof.
  intros P resolver graph fileHandler file results h e Hm Hclient Hget.
  unfold SharePointUpload.process_file, SharePointUpload.getFileFromSharePoint,
    try_catch, bind, call_graph_get, throw.
  rewrite Hm, Hclient, Hget. reflexivity.
Qed.

Lemma SharePointUpload_process_file_fetch_failure_witness :
  SharePointUpload.process_file (graph_down "itemNotFound") resolver_with_client
    configured_handler (complete_reference "a.txt") [] []
  = (Returned [failed_entry (complete_reference "a.txt")
                 "Failed to fetch file from SharePoint: itemNotFound"],
     [{| call := graph_api_get "/sites/site/drives/drive/items/item-a.txt/content";
         reply := Failed "itemNotFound" |}]).
Proof.
  exact (SharePointUpload_process_file_fetch_failure (graph_down "itemNotFound")
           resolver_with_client _ configured_handler (complete_reference "a.txt")
           [] [] "itemNotFound" eq_refl eq_refl eq_refl).
Defined.

(** ** Further properties of unnamed/part_001 *)

Lemma Part001_call_uploadToBlob P fileHandler fileContent name h :
  Part001.call_method "uploadToBlob" P fileHandler fileContent name h
  = (Thrown "fileHandler.uploadToBlob is not a function", h).
Proof. reflexivity. Qed.

Lemma Part001_process_file_emits P fileHandler file results :
  emits (fun c => negb (is_storage_call c))
        (Part001.process_file P fileHandler file results).
Proof.
  unfold Part001.process_file, Part001.getFileFromSharePoint.
  apply emits_try_catch; [| intro; apply emits_ret].
  destruct (missing_field file); [apply emits_ret |].
  apply emits_bind.
  - apply emits_try_catch; [apply emits_graph_get; reflexivity |].
    intro. apply emits_bind; [apply emits_console; reflexivity |].
    intro. apply emits_throw.
  - intro content. apply emits_bind; [| intro; apply emits_ret].
    intro h. rewrite Part001_call_uploadToBlob.
    exists []. split; reflexivity.
Qed.

(** X7. The SharePoint function of part_001 never stores anything: whatever
    the request and the platform, no blob call and no disk write is among
    its events. *)
Theorem Part001_sharePointUpload_never_stores :
  forall P env request h,
    exists added,
      snd (Part001.sharePointUpload P env request h) = (added ++ h)%list
      /\ forallb (fun ev => negb (is_storage_call (call ev))) added = true.
Proof.
  intros P env request.
  change (emits (fun c => negb (is_storage_call c))
                (Part001.sharePointUpload P env request)).
  unfold Part001.sharePointUpload, Part001.request_json,
    Part001.new_SharePointHandler, Part001.new_FileUploadHandler,
    Part001.initializeStorage, Part001.process_files.
  apply emits_try_catch.
  - apply emits_bind.
    + destruct (Part001.json request) as [e | [parsed |]]; auto with emits.
    + intros parsed. destruct (Part001.files parsed) as [[| file rest] |];
        try apply emits_ret.
      apply emits_bind; [apply emits_invoke; reflexivity | intro].
      apply emits_bind.
      * apply emits_bind; [| intro; apply emits_ret].
        apply emits_try_catch; [apply emits_invoke; reflexivity |].
        intro. apply emits_console. reflexivity.
      * intro fileHandler.
        apply emits_bind; [| intro; apply emits_ret].
        apply emits_for_of. intros. apply Part001_process_file_emits.
  - intro. apply emits_bind; [apply emits_console; reflexivity |].
    intro. apply emits_ret.
Qed.





(** X9. The SharePoint function of part_001 answers a body without
    [files], or with an empty array, with status 400 and no call at all,
    and a body that cannot be parsed with status 500 carrying the parse
    error, the only event being the logged error. *)
Theorem Part001_sharePointUpload_rejections :
  forall P env request h,
    (Part001.json request = inr (Some {| Part001.files := None |})
     \/ Part001.json request = inr (Some {| Part001.files := Some [] |}) ->
     exists res,
       Part001.sharePointUpload P env request h = (Returned res, h)
       /\ status res = 400)
    /\ (forall e,
           Part001.json request = inl e ->
           Part001.sharePointUpload P env request h
           = (Returned (error_response 500 "SharePoint upload failed" e),
              {| call := console LogError "SharePoint upload error:" (Some e);
                 reply := Done |} :: h)).
Proof.
  intros P env request h. split.
  - apply Part001_sharePointUpload_without_files.
  - intros e Hjson.
    unfold Part001.sharePointUpload, Part001.request_json, try_catch, bind.
    rewrite Hjson. reflexivity.
Qed.

Lemma Part001_sharePointUpload_rejections_witness :
  exists res,
    Part001.sharePointUpload (scripted None None) sharepoint_env
      (part001_request []) [] = (Returned res, [])
    /\ status res = 400.
Proof.
  exact (proj1 (Part001_sharePointUpload_rejections (scripted None None)
                  sharepoint_env (part001_request []) [])
               (or_intror eq_refl)).
Defined.

Lemma Part001Http_upload_parts P fileHandler files :
  forall results h,
    for_of (Part001Http.upload_part P fileHandler) files results h
    = if existsb has_length files
      then (Thrown "fileHandler.uploadToBlob is not a function", h)
      else (Returned results, h).
Proof.
  induction files as [| file rest IH]; intros results h; simpl; [reflexivity |].
  unfold bind, Part001Http.upload_part at 1.
  destruct (has_length file); simpl.
  - reflexivity.
  - apply IH.
Qed.

(** X10. The direct-upload function of part_001 cannot store a file: as soon
    as one part has a non-zero [length] the answer is status 500 with
    [fileHandler.uploadToBlob is not a function], and otherwise it is status
    200 with an empty [results]. The only calls are those of the
    constructor, which creates the upload directory, and the logged error:
    no blob call and no disk write. *)
Theorem Part001Http_fileUpload_cannot_store :
  forall P env request files h,
    Part001Http.parseFormData request = inr files ->
    exists created,
      Part001Http.fileUpload P env request h
      = (if existsb has_length files
         then (Returned (error_response 500 "File upload failed"
                           "fileHandler.uploadToBlob is not a function"),
               {| call := console LogError "File upload error:"
                            (Some "fileHandler.uploadToBlob is not a function");
                  reply := Done |} :: created ++ h)%list
         else (Returned (results_response "Files processed successfully" []),
               (created ++ h)%list))
      /\ forallb (fun ev => negb (is_storage_call (call ev))) created = true.
Proof.
  intros P env request files h Hparse.
  unfold Part001Http.fileUpload, try_catch, bind, Part000Http.await_result.
  rewrite Hparse.
  unfold Part001.new_FileUploadHandler, Part001.initializeStorage, bind,
    try_catch, invoke, console_log, ret.
  destruct (mkdir_reply P h _); simpl; rewrite Part001Http_upload_parts.
  - eexists [_; _].
    split; [destruct (existsb has_length files); reflexivity | reflexivity].
  - eexists [_].
    split; [destruct (existsb has_length files); reflexivity | reflexivity].
Qed.

Lemma Part001Http_fileUpload_cannot_store_witness :
  fst (Part001Http.fileUpload (scripted None None) sharepoint_env
         {| Part001Http.parseFormData := inr [form_part "a.txt" 5] |} [])
  = Returned (error_response 500 "File upload failed"
                "fileHandler.uploadToBlob is not a function").
Proof.
  destruct (Part001Http_fileUpload_cannot_store (scripted None None) sharepoint_env
              {| Part001Http.parseFormData := inr [form_part "a.txt" 5] |}
              [form_part "a.txt" 5] [] eq_refl) as [created [Hrun _]].
  rewrite Hrun. reflexivity.
Defined.

(** ** The HTTP functions of unnamed/part_000 *)

Lemma Part000_new_FileUploadHandler_returns P env h :
  fst (Part000.new_FileUploadHandler P env h) = Returned (part000_handler env).
Proof.
  unfold Part000.new_FileUploadHandler, Part000.ensureLocalUploadPath, bind,
    try_catch, invoke, console_log, ret.
  destruct (mkdir_reply P h _); reflexivity.
Qed.

(** With a disk that accepts every write, [uploadToBlob] of part_000 always
    returns: the blob URL, or the local path of its own fallback. *)
Lemma Part000_uploadToBlob_healthy_disk P this fileContent name h :
  (forall hw path data, writeFile_reply P hw path data = None) ->
  exists addr h',
    Part000.uploadToBlob P this fileContent name "uploads" h = (Returned addr, h')
    /\ (addr = blob_url P (Part000.connectionString this) "uploads" name
        \/ addr = path_join P [Part000.localUploadPath this; name]).
Proof.
  intros Hdisk.
  unfold Part000.uploadToBlob, Part000.saveToLocal, Part000.content_length,
    bind, try_catch, invoke, console_log, ret, throw.
  destruct (fromConnectionString_reply P h _); simpl.
  { rewrite Hdisk. eexists _, _. split; [reflexivity | right; reflexivity]. }
  destruct (createIfNotExists_reply P _ _); simpl.
  { rewrite Hdisk. eexists _, _. split; [reflexivity | right; reflexivity]. }
  destruct fileContent as [| bytes | s]; simpl.
  - rewrite Hdisk. eexists _, _. split; [reflexivity | right; reflexivity].
  - destruct (upload_reply P _ _ _ _ _); simpl.
    + rewrite Hdisk. eexists _, _. split; [reflexivity | right; reflexivity].
    + eexists _, _. split; [reflexivity | left; reflexivity].
  - destruct (upload_reply P _ _ _ _ _); simpl.
    + rewrite Hdisk. eexists _, _. split; [reflexivity | right; reflexivity].
    + eexists _, _. split; [reflexivity | left; reflexivity].
Qed.

Lemma Part000Http_upload_parts_healthy_disk P this files :
  (forall hw path data, writeFile_reply P hw path data = None) ->
  forall filesData h,
    exists entries h',
      for_of (Part000Http.upload_part P this) files filesData h
      = (Returned (filesData ++ entries)%list, h')
      /\ Forall2 (fun file entry =>
                    stored_under_url P this (FormFile.filename file) entry)
                 (filter has_length files) entries.
Proof.
  intros Hdisk. induction files as [| file rest IH]; intros filesData h; simpl.
  - exists [], h. rewrite app_nil_r. split; [reflexivity | constructor].
  - unfold bind, Part000Http.upload_part at 1.
    destruct (has_length file); simpl.
    + destruct (Part000_uploadToBlob_healthy_disk P this (FormFile.buffer file)
                  (FormFile.filename file) h Hdisk) as (addr & h1 & Hup & Haddr).
      unfold try_catch, bind. rewrite Hup. simpl.
      destruct (IH (push filesData (url_entry (FormFile.filename file) addr)) h1)
        as (entries & h' & Hrun & Hall).
      exists (url_entry (FormFile.filename file) addr :: entries), h'.
      rewrite Hrun. unfold push. rewrite <- app_assoc.
      split; [reflexivity |].
      constructor; [| exact Hall]. exists addr. split; [reflexivity | exact Haddr].
    + apply IH.
Qed.

(** X11. With a disk that accepts every write, [uploadFiles] of part_000
    answers status 200 with one entry per part of non-zero [length], in
    order; parts without [length] are skipped without an entry. Every entry
    reports its location under [url], and that location is the blob URL or,
    when the blob attempt failed, the local path written by the fallback. *)
Theorem Part000Http_uploadFiles_healthy_disk :
  forall P env request files h,
    Part000Http.parseFormData request = inr files ->
    (forall hw path data, writeFile_reply P hw path data = None) ->
    exists filesData h',
      Part000Http.uploadFiles P env request h
      = (Returned (files_response "Files uploaded successfully" filesData), h')
      /\ Forall2 (fun file entry =>
                    stored_under_url P (part000_handler env)
                                     (FormFile.filename file) entry)
                 (filter has_length files) filesData.
Proof.
  intros P env request files h Hparse Hdisk.
  unfold Part000Http.uploadFiles, try_catch, bind at 1.
  pose proof (Part000_new_FileUploadHandler_returns P env h) as Hnew.
  destruct (Part000.new_FileUploadHandler P env h) as [o h1].
  simpl in Hnew. subst o.
  unfold bind, Part000Http.await_result. rewrite Hparse. simpl.
  destruct (Part000Http_upload_parts_healthy_disk P (part000_handler env) files
              Hdisk [] h1) as (entries & h' & Hrun & Hall).
  rewrite Hrun. simpl. exists entries, h'. split; [reflexivity | exact Hall].
Qed.

Lemma Part000Http_uploadFiles_healthy_disk_witness :
  exists filesData h',
    Part000Http.uploadFiles (scripted (Some "connect ETIMEDOUT") None) sharepoint_env
      {| Part000Http.parseFormData :=
           inr [form_part "a.txt" 5; form_part "empty.txt" 0] |} []
    = (Returned (files_response "Files uploaded successfully" filesData), h')
    /\ Forall2 (fun file entry =>
                  stored_under_url (scripted (Some "connect ETIMEDOUT") None)
                    (part000_handler sharepoint_env) (FormFile.filename file) entry)
               [form_part "a.txt" 5] filesData.
Proof.
  refine (Part000Http_uploadFiles_healthy_disk
            (scripted (Some "connect ETIMEDOUT") None) sharepoint_env
            {| Part000Http.parseFormData :=
                 inr [form_part "a.txt" 5; form_part "empty.txt" 0] |}
            [form_part "a.txt" 5; form_part "empty.txt" 0] [] eq_refl _).
  intros hw path data. reflexivity.
Defined.

Lemma Part000Http_upload_parts_abort P this files blob_error disk_error :
  (forall h0 container blob data len,
      upload_reply P h0 container blob data len = Some blob_error) ->
  (forall hw path data, writeFile_reply P hw path data = Some disk_error) ->
  forall filesData h,
    existsb has_length files = true ->
    exists added,
      for_of (Part000Http.upload_part P this) files filesData h
      = (Thrown disk_error, (added ++ h)%list)
      /\ disk_write_attempts added = 2.
Proof.
  intros Hblob Hdisk.
  induction files as [| file rest IH]; intros filesData h; simpl;
    [discriminate |].
  unfold bind, Part000Http.upload_part at 1.
  destruct (has_length file); simpl.
  - intros _.
    unfold Part000.uploadToBlob, Part000.saveToLocal, Part000.content_length,
      bind, try_catch, invoke, console_log, ret, throw.
    destruct (fromConnectionString_reply P h _); simpl;
      [repeat (progress (rewrite ?Hblob, ?Hdisk; simpl));
       give_added reflexivity |].
    destruct (createIfNotExists_reply P _ _); simpl;
      [repeat (progress (rewrite ?Hblob, ?Hdisk; simpl));
       give_added reflexivity |].
    destruct (FormFile.buffer file) as [| bytes | s]; simpl;
      repeat (progress (rewrite ?Hblob, ?Hdisk; simpl));
      give_added reflexivity.
  - apply IH.
Qed.

(** X12. In [uploadFiles] of part_000 a part that cannot be stored takes the
    whole batch down: when the blob upload fails and the disk refuses every
    write, a request with at least one part of non-zero [length] is
    answered with status 500 carrying the disk error and no [files], after
    exactly two write attempts, one by the fallback inside [uploadToBlob]
    and one by the handler's own [catch]. *)
Theorem Part000Http_uploadFiles_aborts :
  forall P env request files h blob_error disk_error,
    Part000Http.parseFormData request = inr files ->
    existsb has_length files = true ->
    (forall h0 container blob data len,
        upload_reply P h0 container blob data len = Some blob_error) ->
    (forall hw path data, writeFile_reply P hw path data = Some disk_error) ->
    exists added,
      Part000Http.uploadFiles P env request h
      = (Returned (error_only_response 500 disk_error), (added ++ h)%list)
      /\ disk_write_attempts added = 2.
Proof.
  intros P env request files h blob_error disk_error Hparse Hsome Hblob Hdisk.
  unfold Part000Http.uploadFiles, try_catch, bind at 1.
  unfold Part000.new_FileUploadHandler, Part000.ensureLocalUploadPath, bind at 1,
    try_catch, invoke, console_log, ret.
  destruct (mkdir_reply P h _); simpl;
    unfold bind, Part000Http.await_result; rewrite Hparse; simpl.
  - match goal with
    | |- context [for_of (Part000Http.upload_part P ?this) files [] ?h1] =>
        destruct (Part000Http_upload_parts_abort P this files blob_error disk_error
                    Hblob Hdisk [] h1 Hsome) as (added & Hrun & Hcount)
    end.
    rewrite Hrun. simpl. unfold context_error, console_log. simpl.
    eexists (_ :: added ++ [_; _])%list. simpl. rewrite <- app_assoc. simpl.
    split; [reflexivity |].
    unfold disk_write_attempts in *. simpl.
    rewrite filter_app, length_app, Hcount. reflexivity.
  - match goal with
    | |- context [for_of (Part000Http.upload_part P ?this) files [] ?h1] =>
        destruct (Part000Http_upload_parts_abort P this files blob_error disk_error
                    Hblob Hdisk [] h1 Hsome) as (added & Hrun & Hcount)
    end.
    rewrite Hrun. simpl. unfold context_error, console_log. simpl.
    eexists (_ :: added ++ [_])%list. simpl. rewrite <- app_assoc. simpl.
    split; [reflexivity |].
    unfold disk_write_attempts in *. simpl.
    rewrite filter_app, length_app, Hcount. reflexivity.
Qed.

Lemma Part000Http_uploadFiles_aborts_witness :
  exists added,
    Part000Http.uploadFiles (scripted (Some "connect ETIMEDOUT") (Some "ENOSPC"))
      sharepoint_env
      {| Part000Http.parseFormData :=
           inr [form_part "a.txt" 5; form_part "b.txt" 7] |} []
    = (Returned (error_only_response 500 "ENOSPC"), (added ++ [])%list)
    /\ disk_write_attempts added = 2.
Proof.
  refine (Part000Http_uploadFiles_aborts
            (scripted (Some "connect ETIMEDOUT") (Some "ENOSPC")) sharepoint_env
            {| Part000Http.parseFormData :=
                 inr [form_part "a.txt" 5; form_part "b.txt" 7] |}
            [form_part "a.txt" 5; form_part "b.txt" 7] []
            "connect ETIMEDOUT" "ENOSPC" eq_refl eq_refl _ _).
  - intros. reflexivity.
  - intros. reflexivity.
Defined.

(** X13. [sharePointUpload] of part_000 answers a body whose
    [sharePointFiles] is missing or empty with status 400 and no call at
    all: neither the credential nor the upload directory is touched. *)
Theorem Part000Http_sharePointUpload_without_items :
  forall P env sp request h,
    Part000Http.json request = inr (Some None)
    \/ Part000Http.json request = inr (Some (Some [])) ->
    Part000Http.sharePointUpload P env sp request h
    = (Returned (error_only_response 400 "No SharePoint files provided"), h).
Proof.
  intros P env sp request h [Hjson | Hjson];
    unfold Part000Http.sharePointUpload, Part000Http.request_json, try_catch, bind;
    rewrite Hjson; reflexivity.
Qed.

Lemma Part000Http_sharePointUpload_without_items_witness :
  Part000Http.sharePointUpload (scripted None None) sharepoint_env
    no_sharepoint_env {| Part000Http.json := inr (Some (Some [])) |} []
  = (Returned (error_only_response 400 "No SharePoint files provided"), []).
Proof.
  exact (Part000Http_sharePointUpload_without_items (scripted None None)
           sharepoint_env no_sharepoint_env
           {| Part000Http.json := inr (Some (Some [])) |} [] (or_intror eq_refl)).
Defined.





(** ** scripts/config.js *)

Lemma assign_fresh_prefix key value old pre rest :
  ~ In key (map fst pre) ->
  Script.assign key value (pre ++ (key, old) :: rest)%list
  = (pre ++ (key, value) :: rest)%list.
Proof.
  induction pre as [| [k v] pre IH]; simpl; intros Hnotin.
  - rewrite String.eqb_refl. reflexivity.
  - destruct (String.eqb_spec k key) as [-> | Hne].
    + exfalso. apply Hnotin. left. reflexivity.
    + rewrite IH; [reflexivity |]. intros Hin. apply Hnotin. right. exact Hin.
Qed.

Lemma update_values_resolves envConfig entries :
  forall pre,
    NoDup (map fst pre ++ map fst entries)%list ->
    forallb (fun entry => is_string (snd entry)) entries = true ->
    Script.update_values envConfig entries (pre ++ entries)%list
    = inr (pre ++ map (resolve_entry envConfig) entries)%list.
Proof.
  induction entries as [| [key value] rest IH]; intros pre Hnodup Hstr; simpl.
  - reflexivity.
  - simpl in Hstr. apply andb_prop in Hstr. destruct Hstr as [Hvalue Hrest].
    destruct value as [s | | json]; try discriminate Hvalue.
    assert (Hnotin : ~ In key (map fst pre)).
    { apply NoDup_remove_2 in Hnodup. intros Hin. apply Hnodup.
      apply in_or_app. left. exact Hin. }
    assert (Hnext : forall v,
               NoDup (map fst (pre ++ [(key, v)]) ++ map fst rest)%list).
    { intros v. rewrite map_app, <- app_assoc. exact Hnodup. }
    unfold resolve_entry at 1. simpl.
    destruct (Script.startsWith_percent s && Script.endsWith_percent s).
    + destruct (envConfig (Script.slice_1_minus_1 s)) as [replacement |].
      * rewrite assign_fresh_prefix by exact Hnotin.
        change (pre ++ (key, replacement) :: rest)%list
          with (pre ++ [(key, replacement)] ++ rest)%list.
        rewrite app_assoc, IH by (exact (Hnext replacement) || exact Hrest).
        rewrite <- app_assoc. reflexivity.
      * change (pre ++ (key, Script.VString s) :: rest)%list
          with (pre ++ [(key, Script.VString s)] ++ rest)%list.
        rewrite app_assoc, IH by (exact (Hnext (Script.VString s)) || exact Hrest).
        rewrite <- app_assoc. reflexivity.
    + change (pre ++ (key, Script.VString s) :: rest)%list
        with (pre ++ [(key, Script.VString s)] ++ rest)%list.
      rewrite app_assoc, IH by (exact (Hnext (Script.VString s)) || exact Hrest).
      rewrite <- app_assoc. reflexivity.
Qed.

Lemma update_values_from_start envConfig values :
  NoDup (map fst values) ->
  forallb (fun entry => is_string (snd entry)) values = true ->
  Script.update_values envConfig values values
  = inr (map (resolve_entry envConfig) values).
Proof.
  intros Hnodup Hstr.
  exact (update_values_resolves envConfig values [] Hnodup Hstr).
Qed.

(** X15. The loop of [updateLocalSettings] is a pointwise substitution: on
    an object whose values are all strings, every entry keeps its key and
    its place, a [%NAME%] value whose name has a non-empty value in .env
    receives that value, and every other value is left as it is. *)
Theorem update_values_is_pointwise :
  forall envConfig values,
    NoDup (map fst values) ->
    forallb (fun entry => is_string (snd entry)) values = true ->
    Script.update_values envConfig values values
    = inr (map (resolve_entry envConfig) values).
Proof.
  intros envConfig values. apply update_values_from_start.
Qed.

Lemma update_values_is_pointwise_witness :
  Script.update_values
    (Script.dotenv_parse (script_platform Script.ParsedNull None None) ".env")
    sample_values sample_values
  = inr [ ("FUNCTIONS_WORKER_RUNTIME", Script.VString "node");
          ("AzureStorageConnectionString", Script.VString "UseDevelopmentStorage=true");
          ("LocalUploadPath", Script.VString "%LOCAL_UPLOAD_PATH%") ].
Proof.
  refine (update_values_is_pointwise
            (Script.dotenv_parse (script_platform Script.ParsedNull None None) ".env")
            sample_values _ eq_refl).
  repeat constructor; simpl; intuition discriminate.
Defined.

Ltac destruct_script_replies :=
  repeat match goal with
         | |- context [Script.readFile_reply ?P ?t ?p] =>
             destruct (Script.readFile_reply P t p); simpl
         | |- context [Script.JSON_parse ?P ?s] =>
             destruct (Script.JSON_parse P s) as [? | [| | ?]]; simpl
         | |- context [Script.Values ?s] =>
             destruct (Script.Values s); simpl
         | |- context [Script.update_values ?e ?a ?b] =>
             destruct (Script.update_values e a b); simpl
         | |- context [Script.writeFile_reply ?P ?t ?p ?d] =>
             destruct (Script.writeFile_reply P t p d); simpl
         | |- context [Script.access_reply ?P ?t ?p] =>
             destruct (Script.access_reply P t p); simpl
         | |- context [Script.copyFile_reply ?P ?t ?p ?d] =>
             destruct (Script.copyFile_reply P t p d); simpl
         | |- context [Script.mkdir_reply ?P ?t ?p] =>
             destruct (Script.mkdir_reply P t p); simpl
         | |- context [Script.require_reply ?P ?t ?p] =>
             destruct (Script.require_reply P t p); simpl
         | |- context [Script.code_is ?e ?n] =>
             destruct (Script.code_is e n); simpl
         end.

Ltac give_trace tac :=
  first [ eexists nil; split; [reflexivity | tac]
        | eexists [_]; split; [reflexivity | tac]
        | eexists [_; _]; split; [reflexivity | tac]
        | eexists [_; _; _]; split; [reflexivity | tac]
        | eexists [_; _; _; _]; split; [reflexivity | tac]
        | eexists [_; _; _; _; _]; split; [reflexivity | tac]
        | eexists [_; _; _; _; _; _]; split; [reflexivity | tac] ].

(** X16. [updateLocalSettings] never rejects and is all or nothing. When it
    returns, exactly one file has been written, local.settings.json. Every
    failure, of a read, of the parsing, of the loop or of the write
    itself, ends in [process.exit(1)] with no file written. *)
Theorem updateLocalSettings_all_or_nothing :
  forall P t,
    exists added,
      snd (Script.updateLocalSettings P t) = (added ++ t)%list
      /\ match fst (Script.updateLocalSettings P t) with
         | Script.Returned _ =>
             exists data, completed_writes added = [(settingsPath_of P, data)]
         | Script.Exited exitCode =>
             exitCode = 1 /\ completed_writes added = []
         | Script.Thrown _ => False
         end.
Proof.
  intros P t.
  unfold Script.updateLocalSettings, Script.try_catch, Script.bind, Script.read,
    Script.lift, Script.entries_of, Script.invoke, Script.perform, Script.exit,
    Script.ret, Script.throw, settingsPath_of.
  destruct_script_replies;
    give_trace ltac:(first [ eexists; reflexivity | split; reflexivity ]).
Qed.

(** X17. When .env cannot be read, [updateLocalSettings] stops there:
    local.settings.json is not even opened. It logs the hint to run the
    setup when the error code is [ENOENT], the error itself otherwise, and
    exits with code 1. *)
Theorem updateLocalSettings_without_env :
  forall P t e,
    Script.readFile_reply P t (envPath_of P) = inl e ->
    Script.updateLocalSettings P t
    = (Script.Exited 1,
       [ {| Script.call := Script.process_exit 1; Script.failure := None |};
         {| Script.call :=
              if Script.code_is e "ENOENT"
              then Script.console_error Script.not_found_message None
              else Script.console_error "Error updating configuration:" (Some e);
            Script.failure := None |};
         {| Script.call := Script.readFile (envPath_of P);
            Script.failure := Some e |} ] ++ t)%list.
Proof.
  intros P t e Hread.
  unfold Script.updateLocalSettings, Script.try_catch, Script.bind, Script.read.
  fold (envPath_of P). rewrite Hread.
  unfold Script.perform, Script.exit.
  destruct (Script.code_is e "ENOENT"); reflexivity.
Qed.

Lemma updateLocalSettings_without_env_witness :
  fst (Script.updateLocalSettings empty_disk []) = Script.Exited 1.
Proof.
  rewrite (updateLocalSettings_without_env empty_disk [] missing_file eq_refl).
  reflexivity.
Defined.

Lemma update_values_rejects envConfig entries :
  forall values,
    forallb (fun entry => is_string (snd entry)) entries = false ->
    exists e,
      Script.update_values envConfig entries values = inl e
      /\ Script.code e = None.
Proof.
  induction entries as [| [key value] rest IH]; intros values Hsome; simpl in *.
  - discriminate.
  - destruct value as [s | | json]; simpl in Hsome.
    + destruct (Script.startsWith_percent s && Script.endsWith_percent s);
        [destruct (envConfig (Script.slice_1_minus_1 s)) |]; apply IH; exact Hsome.
    + eexists. split; reflexivity.
    + eexists. split; reflexivity.
Qed.

(** X18. One setting that is not a string stops the whole update: when
    [Values] holds a number, a boolean, [null] or a nested object, the loop
    throws on it, nothing is written, not even the placeholders before
    it, and the script exits with code 1 after logging the error. *)
Theorem updateLocalSettings_non_string_value :
  forall P t envText settingsText settings values,
    Script.readFile_reply P t (envPath_of P) = inr envText ->
    Script.readFile_reply P
      ({| Script.call := Script.readFile (envPath_of P); Script.failure := None |} :: t)
      (settingsPath_of P) = inr settingsText ->
    Script.JSON_parse P settingsText = inr (Script.ParsedObject settings) ->
    Script.Values settings = Some values ->
    forallb (fun entry => is_string (snd entry)) values = false ->
    exists e,
      Script.updateLocalSettings P t
      = (Script.Exited 1,
         [ {| Script.call := Script.process_exit 1; Script.failure := None |};
           {| Script.call :=
                Script.console_error "Error updating configuration:" (Some e);
              Script.failure := None |};
           {| Script.call := Script.readFile (settingsPath_of P);
              Script.failure := None |};
           {| Script.call := Script.readFile (envPath_of P);
              Script.failure := None |} ] ++ t)%list.
Proof.
  intros P t envText settingsText settings values Henv Hsettings Hparse Hvalues Hsome.
  destruct (update_values_rejects (Script.dotenv_parse P envText) values values Hsome)
    as [e [Hloop Hcode]].
  exists e.
  unfold Script.updateLocalSettings, Script.try_catch, Script.bind, Script.read.
  fold (envPath_of P). fold (settingsPath_of P).
  rewrite Henv, Hsettings, Hparse. simpl. rewrite Hvalues. simpl.
  rewrite Hloop. simpl.
  unfold Script.code_is. rewrite Hcode. reflexivity.
Qed.

Lemma updateLocalSettings_non_string_value_witness :
  fst (Script.updateLocalSettings
         (script_platform
            (Script.ParsedObject
               {| Script.Values :=
                    Some [("AzureWebJobsStorage",
                           Script.VString "%AZURE_STORAGE_CONNECTION_STRING%");
                          ("MaxFileSize", Script.VOther "10485760")];
                  Script.other_properties := [] |})
            None None) [])
  = Script.Exited 1.
Proof.
  destruct (updateLocalSettings_non_string_value
              (script_platform
                 (Script.ParsedObject
                    {| Script.Values :=
                         Some [("AzureWebJobsStorage",
                                Script.VString "%AZURE_STORAGE_CONNECTION_STRING%");
                               ("MaxFileSize", Script.VOther "10485760")];
                       Script.other_properties := [] |})
                 None None) [] _ _ _ _ eq_refl eq_refl eq_refl eq_refl eq_refl)
    as [e Hrun].
  rewrite Hrun. reflexivity.
Defined.






(** X20. A successful run of [updateLocalSettings], end to end: when both
    files can be read, local.settings.json parses to an object whose
    [Values] are all strings, and the write is accepted, the text written
    is the serialisation of the same settings with every value resolved,
    and the calls are the two reads, the write and the success message, in
    that order. *)
Theorem updateLocalSettings_writes_resolved_values :
  forall P t envText settingsText settings values,
    let read_env :=
      {| Script.call := Script.readFile (envPath_of P); Script.failure := None |} in
    let read_settings :=
      {| Script.call := Script.readFile (settingsPath_of P);
         Script.failure := None |} in
    let data :=
      Script.JSON_stringify P
        {| Script.Values :=
             Some (map (resolve_entry (Script.dotenv_parse P envText)) values);
           Script.other_properties := Script.other_properties settings |} in
    Script.readFile_reply P t (envPath_of P) = inr envText ->
    Script.readFile_reply P (read_env :: t) (settingsPath_of P) = inr settingsText ->
    Script.JSON_parse P settingsText = inr (Script.ParsedObject settings) ->
    Script.Values settings = Some values ->
    NoDup (map fst values) ->
    forallb (fun entry => is_string (snd entry)) values = true ->
    Script.writeFile_reply P (read_settings :: read_env :: t) (settingsPath_of P) data
    = None ->
    Script.updateLocalSettings P t
    = (Script.Returned tt,
       [ {| Script.call :=
              Script.console_log
                "Successfully updated local.settings.json with environment variables";
            Script.failure := None |};
         {| Script.call := Script.writeFile (settingsPath_of P) data;
            Script.failure := None |};
         read_settings; read_env ] ++ t)%list.
Proof.
  intros P t envText settingsText settings values read_env read_settings data
         Henv Hsettings Hparse Hvalues Hnodup Hstr Hwrite.
  unfold Script.updateLocalSettings, Script.try_catch, Script.bind, Script.read.
  fold (envPath_of P). fold (settingsPath_of P).
  rewrite Henv. fold read_env. rewrite Hsettings, Hparse. simpl.
  rewrite Hvalues. simpl.
  rewrite (update_values_from_start _ values Hnodup Hstr). simpl.
  unfold Script.invoke. fold data. fold read_settings. rewrite Hwrite.
  reflexivity.
Qed.

Lemma updateLocalSettings_writes_resolved_values_witness :
  fst (Script.updateLocalSettings
         (script_platform (Script.ParsedObject sample_settings) None None) [])
  = Script.Returned tt.
Proof.
  rewrite (updateLocalSettings_writes_resolved_values
             (script_platform (Script.ParsedObject sample_settings) None None) []
             _ _ sample_settings sample_values
             eq_refl eq_refl eq_refl eq_refl).
  - reflexivity.
  - repeat constructor; simpl; intuition discriminate.
  - reflexivity.
  - reflexivity.
Defined.

(** ** setup.js *)

Lemma exits_cleanly_ret {A} (a : A) : exits_cleanly (Script.ret a).
Proof. intros t c t' H. discriminate H. Qed.

Lemma exits_cleanly_throw {A} e : exits_cleanly (@Script.throw A e).
Proof. intros t c t' H. discriminate H. Qed.

Lemma exits_cleanly_perform c : exits_cleanly (Script.perform c).
Proof. intros t c0 t' H. discriminate H. Qed.

Lemma exits_cleanly_invoke c answer : exits_cleanly (Script.invoke c answer).
Proof.
  intros t c0 t'. unfold Script.invoke. destruct (answer t); discriminate.
Qed.

Lemma exits_cleanly_read P path : exits_cleanly (Script.read P path).
Proof.
  intros t c t'. unfold Script.read.
  destruct (Script.readFile_reply P t path); discriminate.
Qed.

Lemma exits_cleanly_ask P query : exits_cleanly (Script.ask P query).
Proof. intros t c t' H. discriminate H. Qed.

Lemma exits_cleanly_lift {A} (result : Script.Error + A) :
  exits_cleanly (Script.lift result).
Proof. intros t c t'. destruct result; discriminate. Qed.

Lemma exits_cleanly_exit {A} : exits_cleanly (@Script.exit A 1).
Proof.
  intros t c t' H. injection H as <- <-. split; [reflexivity |].
  eexists. reflexivity.
Qed.



Create HintDb exits discriminated.
#[local] Hint Resolve exits_cleanly_ret exits_cleanly_throw exits_cleanly_perform
  exits_cleanly_invoke exits_cleanly_read exits_cleanly_ask exits_cleanly_lift
  exits_cleanly_exit : exits.





Lemma string_append_assoc (a b c : string) : (a ++ b) ++ c = a ++ (b ++ c).
Proof. induction a as [| x a IH]; simpl; [reflexivity | rewrite IH; reflexivity]. Qed.

Lemma string_append_nil_r (a : string) : a ++ EmptyString = a.
Proof. induction a as [| x a IH]; simpl; [reflexivity | rewrite IH; reflexivity]. Qed.

Lemma build_envContent_lines entries :
  forall envContent,
    Script.build_envContent entries envContent
    = envContent ++ join_lines (map env_line (filter has_value entries)).
Proof.
  induction entries as [| [key value] rest IH]; intros envContent; simpl.
  - rewrite string_append_nil_r. reflexivity.
  - unfold has_value at 1. simpl.
    destruct (String.eqb value EmptyString); simpl.
    + apply IH.
    + rewrite IH. unfold env_line at 2. simpl.
      rewrite !string_append_assoc. reflexivity.
Qed.

(** X22. The text that [setup] writes to .env is, line by line and in the
    order of the [config] object, [KEY=value] for exactly the entries with a
    non-empty value: a question answered with an empty line leaves no line,
    not even an empty assignment. *)
Theorem envContent_is_the_lines_with_values :
  forall entries,
    Script.build_envContent entries EmptyString
    = join_lines (map env_line (filter has_value entries)).
Proof.
  intros entries. rewrite build_envContent_lines. reflexivity.
Qed.

Ltac prefix_of l t :=
  lazymatch l with
  | t => constr:(@nil Script.Event)
  | ?e :: ?r => let p := prefix_of r t in constr:(e :: p)
  end.

Ltac give_prefix :=
  lazymatch goal with
  | |- exists added, (_, ?l) = (_, (added ++ ?t)%list) /\ _ =>
      let p := prefix_of l t in exists p
  end.

Ltac reduce_setup := cbv beta iota zeta delta [negb].

Ltac run_setup :=
  unfold Script.setup;
  repeat progress unfold Script.try_finally, Script.try_catch, Script.bind,
    Script.for_each_dir, Script.ensure_dir, Script.exists_, Script.invoke,
    Script.perform, Script.ask, Script.ret, Script.throw;
  reduce_setup.




(** X24. When a required directory is absent and cannot be created,
    [setup] stops before asking anything: no question is put, nothing is
    written, the error is logged and [setup] returns after closing the
    readline interface. *)
Theorem setup_directory_not_creatable :
  forall P t probe_error e,
    (forall t0 path, Script.access_reply P t0 path = Some probe_error) ->
    (forall t0 path, Script.mkdir_reply P t0 path = Some e) ->
    exists added,
      Script.setup P t = (Script.Returned tt, (added ++ t)%list)
      /\ forallb (fun ev => negb (is_write_or_question (Script.call ev))) added = true.
Proof.
  intros P t probe_error e Haccess Hmkdir.
  run_setup.
  repeat (rewrite Haccess; reduce_setup).
  rewrite Hmkdir. reduce_setup.
  destruct (Script.code_is e "MODULE_NOT_FOUND"); reduce_setup;
    give_prefix; split; reflexivity.
Qed.

Lemma setup_directory_not_creatable_witness :
  exists added,
    Script.setup (script_platform Script.ParsedNull (Some missing_file)
                    (Some permission_denied)) []
    = (Script.Returned tt, (added ++ [])%list)
    /\ forallb (fun ev => negb (is_write_or_question (Script.call ev))) added = true.
Proof.
  refine (setup_directory_not_creatable
            (script_platform Script.ParsedNull (Some missing_file)
               (Some permission_denied)) [] missing_file permission_denied _ _);
    intros; reflexivity.
Defined.

(** ** The resolver of sharePointUpload/index.js without a tenant *)

(** X25. The handler's mock-mode test looks at the client id and the
    secret only, the constructor of [SharePointHandler] at all three
    variables. With the tenant id missing the constructor makes no call and
    leaves the resolver without a client, and the loop body then gives every
    complete reference a failure entry saying that the client is not
    initialised, again without any call. *)
Theorem SharePointUpload_without_tenant :
  forall P env fileHandler file results h,
    truthy (SHAREPOINT_TENANT_ID env) = false ->
    missing_field file = false ->
    exists resolver,
      SharePointUpload.new_SharePointHandler P env h = (Returned resolver, h)
      /\ SharePointUpload.client resolver = None
      /\ SharePointUpload.process_file P resolver fileHandler file results h
         = (Returned (push results (failed_entry file not_initialized)), h).
Proof.
  intros P env fileHandler file results h Htenant Hfile.
  exists {| SharePointUpload.client := None |}.
  unfold SharePointUpload.new_SharePointHandler. rewrite Htenant.
  rewrite !orb_true_r. split; [reflexivity |]. split; [reflexivity |].
  unfold SharePointUpload.process_file, try_catch, bind. rewrite Hfile.
  reflexivity.
Qed.

Lemma SharePointUpload_without_tenant_witness :
  exists resolver,
    SharePointUpload.new_SharePointHandler (scripted None None)
      (env_with None (Some "client-id") (Some "client-secret") None) []
    = (Returned resolver, [])
    /\ SharePointUpload.client resolver = None
    /\ SharePointUpload.process_file (scripted None None) resolver configured_handler
         (complete_reference "a.txt") [] []
       = (Returned (push [] (failed_entry (complete_reference "a.txt") not_initialized)),
          []).
Proof.
  exact (SharePointUpload_without_tenant (scripted None None)
           (env_with None (Some "client-id") (Some "client-secret") None)
           configured_handler (complete_reference "a.txt") [] [] eq_refl eq_refl).
Defined.
